(** * json_to_iceberg: flattening, record detection, null-type resolution
      and the Arrow bridge, embedded from [flatten.py] and [schema.py]. *)

From Stdlib Require Import List String Ascii ZArith Bool Arith Lia.
Import ListNotations.
Open Scope string_scope.
Open Scope list_scope.

Set Warnings "-register-all".

(* ================================================================== *)
(** * Python values, exceptions and insertion-ordered dictionaries     *)
(* ================================================================== *)

(** The values [json.load] produces.  A float is kept as an opaque
    mantissa/exponent pair: the code never computes on it. *)
Inductive Value : Type :=
| PyNone
| PyBool (b : bool)
| PyInt (n : Z)
| PyFloat (mantissa exponent : Z)
| PyStr (s : string)
| PyList (elems : list Value)
| PyDict (items : list (string * Value)).

(** [type(raw).__name__] *)
Definition type_name (v : Value) : string :=
  match v with
  | PyNone => "NoneType"
  | PyBool _ => "bool"
  | PyInt _ => "int"
  | PyFloat _ _ => "float"
  | PyStr _ => "str"
  | PyList _ => "list"
  | PyDict _ => "dict"
  end.

Definition isinstance_list (v : Value) : bool :=
  match v with PyList _ => true | _ => false end.

Definition isinstance_dict (v : Value) : bool :=
  match v with PyDict _ => true | _ => false end.

(** Truth value of an object, as [if x] / [x and ...] test it. *)
Definition truthy (v : Value) : bool :=
  match v with
  | PyNone => false
  | PyBool b => b
  | PyInt n => negb (Z.eqb n 0)
  | PyFloat m _ => negb (Z.eqb m 0)
  | PyStr s => negb (String.eqb s "")
  | PyList l => match l with [] => false | _ => true end
  | PyDict d => match d with [] => false | _ => true end
  end.

Inductive PyExn : Type :=
| ValueError (msg : string)
| ColumnNotFoundError (column : string)
| ArrowInvalid (msg : string).

Inductive result (A : Type) : Type :=
| Return (a : A)
| Raise (e : PyExn).
Arguments Return {A} a.
Arguments Raise {A} e.

Definition bind {A B : Type} (r : result A) (k : A -> result B) : result B :=
  match r with
  | Return a => k a
  | Raise e => Raise e
  end.

Notation "x <- r ;; k" := (bind r (fun x => k))
  (at level 61, r at next level, right associativity).

(** A call on each element in turn; the first exception ends the walk. *)
Fixpoint map_result {A B : Type} (f : A -> result B) (l : list A)
  : result (list B) :=
  match l with
  | [] => Return []
  | a :: rest =>
      b <- f a ;;
      bs <- map_result f rest ;;
      Return (b :: bs)
  end.

(** A [dict]: keys are unique and kept in insertion order.  Assigning to
    a key that is present replaces the value where the key already
    stands; a new key goes to the end. *)
Definition dict (V : Type) : Type := list (string * V).

Fixpoint dict_set {V : Type} (d : dict V) (k : string) (v : V) : dict V :=
  match d with
  | [] => [(k, v)]
  | (k', v') :: rest =>
      if String.eqb k' k then (k', v) :: rest
      else (k', v') :: dict_set rest k v
  end.

Fixpoint dict_get {V : Type} (d : dict V) (k : string) : option V :=
  match d with
  | [] => None
  | (k', v') :: rest => if String.eqb k' k then Some v' else dict_get rest k
  end.

(** [d.update(other)] *)
Definition dict_update {V : Type} (d other : dict V) : dict V :=
  fold_left (fun acc kv => dict_set acc (fst kv) (snd kv)) other d.

Definition keys {V : Type} (d : dict V) : list string := map fst d.

(** [d.values()] *)
Definition dict_values {V : Type} (d : dict V) : list V := map snd d.

(* ================================================================== *)
(** * flatten.py                                                       *)
(* ================================================================== *)

(** [f"{_prefix}{separator}{key}" if _prefix else key] *)
Definition full_key_of (_prefix separator key : string) : string :=
  if truthy (PyStr _prefix) then _prefix ++ separator ++ key else key.

(** [flatten_record], with the recursion carried on the enclosing
    object so that the nested call is structural.  The inner loop is the
    [for key, value in record.items()] loop over the accumulator [flat]. *)
Fixpoint flatten_object (obj : Value) (separator _prefix : string)
  {struct obj} : dict Value :=
  match obj with
  | PyDict record =>
      (fix items_loop (items : list (string * Value)) (flat : dict Value)
         {struct items} : dict Value :=
         match items with
         | [] => flat
         | (key, value) :: rest =>
             let full_key := full_key_of _prefix separator key in
             match value with
             | PyDict _ =>
                 items_loop rest
                   (dict_update flat (flatten_object value separator full_key))
             | _ => items_loop rest (dict_set flat full_key value)
             end
         end) record []
  | _ => []
  end.

Definition flatten_record (record : dict Value) (separator _prefix : string)
  : dict Value :=
  flatten_object (PyDict record) separator _prefix.

(** The loop of [flatten_record] on its own, for reasoning. *)
Fixpoint flatten_items (separator _prefix : string)
  (items : list (string * Value)) (flat : dict Value) : dict Value :=
  match items with
  | [] => flat
  | (key, value) :: rest =>
      let full_key := full_key_of _prefix separator key in
      match value with
      | PyDict d =>
          flatten_items separator _prefix rest
            (dict_update flat (flatten_record d separator full_key))
      | _ => flatten_items separator _prefix rest (dict_set flat full_key value)
      end
  end.

(** The test of the scan in [_detect_records]:
    [isinstance(value, list) and value and isinstance(value[0], dict)] *)
Definition is_record_list (value : Value) : bool :=
  isinstance_list value && truthy value &&
  match value with
  | PyList (first :: _) => isinstance_dict first
  | _ => false
  end.

(** [for value in raw.values(): if ...: return value] *)
Fixpoint scan_values (values : list Value) : option Value :=
  match values with
  | [] => None
  | value :: rest =>
      if is_record_list value then Some value else scan_values rest
  end.

Definition _detect_records (raw : Value) : result Value :=
  if isinstance_list raw then Return raw
  else if isinstance_dict raw then
    match raw with
    | PyDict items =>
        match scan_values (dict_values items) with
        | Some value => Return value
        | None => Return (PyList [raw])
        end
    | _ => Return (PyList [raw])
    end
  else Raise (ValueError ("Unexpected JSON root type: " ++ type_name raw)).

(** ** The flattener as the specification words it

    Leaves of a record: every value that is not a mapping, with the key
    built from the path.  [parent] is [None] at depth 0 and the parent's
    flat key below. *)
Definition spec_key (parent : option string) (separator key : string) : string :=
  match parent with
  | None => key
  | Some p => p ++ separator ++ key
  end.

Fixpoint spec_leaves (obj : Value) (separator : string) (parent : option string)
  {struct obj} : list (string * Value) :=
  match obj with
  | PyDict record =>
      (fix walk (items : list (string * Value)) : list (string * Value) :=
         match items with
         | [] => []
         | (key, value) :: rest =>
             match value with
             | PyDict _ =>
                 spec_leaves value separator
                   (Some (spec_key parent separator key)) ++ walk rest
             | _ => (spec_key parent separator key, value) :: walk rest
             end
         end) record
  | _ => []
  end.

(** One entry per distinct key, first occurrence fixing the position and
    the last occurrence the value. *)
Definition last_wins (entries : list (string * Value)) : dict Value :=
  dict_update [] entries.

(** No top-level key that leads into a nested mapping is the empty
    string.  Keys below the top level are free. *)
Definition top_level_mappings_named (record : dict Value) : bool :=
  forallb
    (fun kv => negb (isinstance_dict (snd kv) && String.eqb (fst kv) ""))
    record.

(** The walk of [spec_leaves] over the items of one mapping, on its own. *)
Fixpoint spec_walk (separator : string) (parent : option string)
  (items : list (string * Value)) : list (string * Value) :=
  match items with
  | [] => []
  | (key, value) :: rest =>
      match value with
      | PyDict _ =>
          spec_leaves value separator (Some (spec_key parent separator key))
            ++ spec_walk separator parent rest
      | _ => (spec_key parent separator key, value)
               :: spec_walk separator parent rest
      end
  end.

(* ================================================================== *)
(** * The Polars side: dtypes, series and frames                       *)
(* ================================================================== *)

Module pl.

Inductive TimeUnit : Type := ns | us | ms.

(** The dtypes the pipeline can meet.  [Field name dtype] is the pair
    [(name, dtype)]. *)
Inductive DataType : Type :=
| Null
| Boolean
| Int64
| Float64
| Utf8
| Date
| Datetime (time_unit : TimeUnit) (time_zone : option string)
| List (inner : DataType)
| Array (inner : DataType) (width : nat)
| Struct (fields : list (string * DataType)).

Definition time_unit_eqb (a b : TimeUnit) : bool :=
  match a, b with
  | ns, ns | us, us | ms, ms => true
  | _, _ => false
  end.

Definition time_zone_eqb (a b : option string) : bool :=
  match a, b with
  | None, None => true
  | Some x, Some y => String.eqb x y
  | _, _ => false
  end.

(** [a == b] on dtype instances. *)
Fixpoint dtype_eqb (a b : DataType) {struct a} : bool :=
  match a with
  | Null => match b with Null => true | _ => false end
  | Boolean => match b with Boolean => true | _ => false end
  | Int64 => match b with Int64 => true | _ => false end
  | Float64 => match b with Float64 => true | _ => false end
  | Utf8 => match b with Utf8 => true | _ => false end
  | Date => match b with Date => true | _ => false end
  | Datetime u z =>
      match b with
      | Datetime u' z' => time_unit_eqb u u' && time_zone_eqb z z'
      | _ => false
      end
  | List x => match b with List y => dtype_eqb x y | _ => false end
  | Array x n =>
      match b with
      | Array y m => dtype_eqb x y && Nat.eqb n m
      | _ => false
      end
  | Struct fs =>
      match b with
      | Struct gs =>
          (fix fields_eqb (fs gs : list (string * DataType)) : bool :=
             match fs, gs with
             | [], [] => true
             | (n, t) :: fs', (m, u) :: gs' =>
                 String.eqb n m && dtype_eqb t u && fields_eqb fs' gs'
             | _, _ => false
             end) fs gs
      | _ => false
      end
  end.

Record Series : Type := mkSeries {
  name : string;
  dtype : DataType;
  values : list Value
}.

(** A frame is its columns in order; column names are unique. *)
Definition DataFrame : Type := list Series.

Definition columns (df : DataFrame) : list string := map name df.

(** [df.schema]: column name to dtype, in column order. *)
Definition schema (df : DataFrame) : dict DataType :=
  map (fun s => (name s, dtype s)) df.

Fixpoint get_column (df : DataFrame) (n : string) : option Series :=
  match df with
  | [] => None
  | s :: rest => if String.eqb (name s) n then Some s else get_column rest n
  end.

(** A computed column replaces the column of the same name where it
    stands, or is appended. *)
Fixpoint set_column (df : DataFrame) (s : Series) : DataFrame :=
  match df with
  | [] => [s]
  | c :: rest =>
      if String.eqb (name c) (name s) then s :: rest
      else c :: set_column rest s
  end.

(** [pl.col(name).cast(dtype)] *)
Inductive Expr : Type := col_cast (column : string) (to : DataType).

Section Cast.
(** Conversions between distinct non-null leaf dtypes belong to the
    library; the resolver never asks for one. *)
Variable convert : DataType -> DataType -> Value -> Value.

(** What a cast does to one row value: equal dtypes leave it alone,
    a [Null]-typed column holds only nulls and stays all null, a null
    stays null, and lists and structs are cast element by element. *)
Fixpoint cast_value (from to : DataType) (v : Value) {struct from} : Value :=
  if dtype_eqb from to then v
  else
    match from with
    | Null => PyNone
    | List a =>
        match to, v with
        | _, PyNone => PyNone
        | List b, PyList l => PyList (map (cast_value a b) l)
        | _, _ => convert from to v
        end
    | Struct fs =>
        match to, v with
        | _, PyNone => PyNone
        | Struct gs, PyDict kvs =>
            PyDict
              ((fix cast_fields (fs gs : list (string * DataType))
                  (kvs : list (string * Value)) : list (string * Value) :=
                  match fs, gs, kvs with
                  | (_, ft) :: fs', (n, gt) :: gs', (_, x) :: kvs' =>
                      (n, cast_value ft gt x) :: cast_fields fs' gs' kvs'
                  | _, _, _ => []
                  end) fs gs kvs)
        | _, _ => convert from to v
        end
    | _ => match v with PyNone => PyNone | _ => convert from to v end
    end.

Definition cast (s : Series) (to : DataType) : Series :=
  {| name := name s;
     dtype := to;
     values := map (cast_value (dtype s) to) (values s) |}.

Definition eval_expr (df : DataFrame) (e : Expr) : result Series :=
  match e with
  | col_cast n to =>
      match get_column df n with
      | Some s => Return (cast s to)
      | None => Raise (ColumnNotFoundError n)
      end
  end.

(** [df.with_columns(exprs)]: every expression is evaluated on [df]. *)
Fixpoint with_columns_from (df : DataFrame) (exprs : list Expr)
  (acc : DataFrame) : result DataFrame :=
  match exprs with
  | [] => Return acc
  | e :: rest =>
      s <- eval_expr df e ;;
      with_columns_from df rest (set_column acc s)
  end.

Definition with_columns (df : DataFrame) (exprs : list Expr)
  : result DataFrame :=
  with_columns_from df exprs df.
End Cast.

End pl.

(* ================================================================== *)
(** * The Arrow side: types, fields and tables                         *)
(* ================================================================== *)

Module pa.

Inductive TimeUnit : Type := sec | ms | us | ns.

Inductive DataType : Type :=
| null
| bool_
| int64
| float64
| large_utf8
| date32
| timestamp (unit : TimeUnit) (tz : option string)
| large_list (value_type : DataType)
| fixed_size_list (value_type : DataType) (list_size : nat)
| struct (fields : list (string * DataType)).

Record Field : Type := field { name : string; type : DataType }.

(** [field.with_type(t)] *)
Definition with_type (f : Field) (t : DataType) : Field :=
  {| name := name f; type := t |}.

(** [pa.types.is_timestamp] *)
Definition is_timestamp (t : DataType) : bool :=
  match t with timestamp _ _ => true | _ => false end.

Definition time_unit_eqb (a b : TimeUnit) : bool :=
  match a, b with
  | sec, sec | ms, ms | us, us | ns, ns => true
  | _, _ => false
  end.

(** [t.unit == u] and [t.tz], read on a timestamp type. *)
Definition unit_is (t : DataType) (u : TimeUnit) : bool :=
  match t with timestamp u' _ => time_unit_eqb u' u | _ => false end.

Definition tz_of (t : DataType) : option string :=
  match t with timestamp _ z => z | _ => None end.

Definition Column : Type := (Field * list Value)%type.
Definition Table : Type := list Column.

(** [table.schema] *)
Definition schema (t : Table) : list Field := map fst t.

(** [a == b] on types. *)
Fixpoint type_eqb (a b : DataType) {struct a} : bool :=
  match a with
  | null => match b with null => true | _ => false end
  | bool_ => match b with bool_ => true | _ => false end
  | int64 => match b with int64 => true | _ => false end
  | float64 => match b with float64 => true | _ => false end
  | large_utf8 => match b with large_utf8 => true | _ => false end
  | date32 => match b with date32 => true | _ => false end
  | timestamp u z =>
      match b with
      | timestamp u' z' =>
          time_unit_eqb u u'
          && match z, z' with
             | None, None => true
             | Some x, Some y => String.eqb x y
             | _, _ => false
             end
      | _ => false
      end
  | large_list x => match b with large_list y => type_eqb x y | _ => false end
  | fixed_size_list x n =>
      match b with
      | fixed_size_list y m => type_eqb x y && Nat.eqb n m
      | _ => false
      end
  | struct fs =>
      match b with
      | struct gs =>
          (fix fields_eqb (fs gs : list (string * DataType)) : bool :=
             match fs, gs with
             | [], [] => true
             | (n, t) :: fs', (m, u) :: gs' =>
                 String.eqb n m && type_eqb t u && fields_eqb fs' gs'
             | _, _ => false
             end) fs gs
      | _ => false
      end
  end.

Fixpoint names_eqb (a b : list string) : bool :=
  match a, b with
  | [], [] => true
  | x :: a', y :: b' => String.eqb x y && names_eqb a' b'
  | _, _ => false
  end.

(** A timestamp cell is the count of the column's unit since the epoch,
    or [None].  The checked conversion from nanoseconds to microseconds
    divides by 1000 and refuses a count that is not whole in
    microseconds. *)
Definition rescale_ns_to_us (v : Value) : result Value :=
  match v with
  | PyNone => Return PyNone
  | PyInt n =>
      if Z.eqb (Z.modulo n 1000) 0 then Return (PyInt (Z.div n 1000))
      else
        Raise
          (ArrowInvalid
             "Casting from timestamp[ns] to timestamp[us] would lose data")
  | _ => Raise (ArrowInvalid "not a timestamp value")
  end.

Section Cast.
(** Conversions the bridge never asks for stay with the library. *)
Variable cast_other : DataType -> DataType -> list Value -> result (list Value).

(** The checked cast of one column: nothing to do between equal types;
    nanosecond to microsecond timestamps are rescaled cell by cell. *)
Definition cast_array (from to : DataType) (vs : list Value)
  : result (list Value) :=
  if type_eqb from to then Return vs
  else
    match from, to with
    | timestamp ns _, timestamp us _ => map_result rescale_ns_to_us vs
    | _, _ => cast_other from to vs
    end.

(** [table.cast(pa.schema(fields))], with the default [safe=True]. *)
Definition cast (t : Table) (fields : list Field) : result Table :=
  if names_eqb (map name (schema t)) (map name fields)
  then
    map_result
      (fun cf : Column * Field =>
         vs <- cast_array (type (fst (fst cf))) (type (snd cf)) (snd (fst cf)) ;;
         Return (snd cf, vs))
      (combine t fields)
  else
    Raise
      (ValueError
         "Target schema's field names are not matching the table's field names").
End Cast.

End pa.

(** [df.to_arrow()]: the Arrow type of each dtype. *)
Definition to_arrow_unit (u : pl.TimeUnit) : pa.TimeUnit :=
  match u with
  | pl.ns => pa.ns
  | pl.us => pa.us
  | pl.ms => pa.ms
  end.

Fixpoint to_arrow_type (d : pl.DataType) : pa.DataType :=
  match d with
  | pl.Null => pa.null
  | pl.Boolean => pa.bool_
  | pl.Int64 => pa.int64
  | pl.Float64 => pa.float64
  | pl.Utf8 => pa.large_utf8
  | pl.Date => pa.date32
  | pl.Datetime u z => pa.timestamp (to_arrow_unit u) z
  | pl.List inner => pa.large_list (to_arrow_type inner)
  | pl.Array inner w => pa.fixed_size_list (to_arrow_type inner) w
  | pl.Struct fields =>
      pa.struct (map (fun f => (fst f, to_arrow_type (snd f))) fields)
  end.

Definition to_arrow (df : pl.DataFrame) : pa.Table :=
  map (fun s => (pa.field (pl.name s) (to_arrow_type (pl.dtype s)), pl.values s))
      df.

(* ================================================================== *)
(** * schema.py                                                        *)
(* ================================================================== *)

Definition _DEFAULT_TYPE : pl.DataType := pl.Utf8.

Fixpoint _resolve_dtype (dtype default : pl.DataType) {struct dtype}
  : pl.DataType :=
  if pl.dtype_eqb dtype pl.Null then default
  else
    match dtype with
    | pl.List inner => pl.List (_resolve_dtype inner default)
    | pl.Struct fields =>
        pl.Struct (map (fun f => (fst f, _resolve_dtype (snd f) default)) fields)
    | _ => dtype
    end.

Section ResolveNullTypes.
Variable convert : pl.DataType -> pl.DataType -> Value -> Value.

(** The loop that fills [casts]. *)
Definition collect_casts (df : pl.DataFrame) (default : pl.DataType)
  : dict pl.DataType :=
  fold_left
    (fun casts nd =>
       let resolved := _resolve_dtype (snd nd) default in
       if negb (pl.dtype_eqb resolved (snd nd))
       then dict_set casts (fst nd) resolved
       else casts)
    (pl.schema df) [].

Definition resolve_null_types (df : pl.DataFrame) (default : pl.DataType)
  : result pl.DataFrame :=
  let casts := collect_casts df default in
  match casts with
  | [] => Return df
  | _ =>
      pl.with_columns convert df
        (map (fun nd => pl.col_cast (fst nd) (snd nd)) casts)
  end.
End ResolveNullTypes.

Section DataframeToArrow.
Variable cast_other :
  pa.DataType -> pa.DataType -> list Value -> result (list Value).

(** One turn of the loop over [arrow_table.schema]. *)
Definition downcast_step (state : list pa.Field * bool) (f : pa.Field)
  : list pa.Field * bool :=
  let (new_fields, needs_cast) := state in
  if pa.is_timestamp (pa.type f) && pa.unit_is (pa.type f) pa.ns
  then (new_fields
          ++ [pa.with_type f (pa.timestamp pa.us (pa.tz_of (pa.type f)))],
        true)
  else (new_fields ++ [f], needs_cast).

(** Everything after [df.to_arrow()]. *)
Definition downcast_timestamps (arrow_table : pa.Table) : result pa.Table :=
  let (new_fields, needs_cast) :=
    fold_left downcast_step (pa.schema arrow_table) ([], false) in
  if needs_cast then pa.cast cast_other arrow_table new_fields
  else Return arrow_table.

Definition dataframe_to_arrow (df : pl.DataFrame) : result pa.Table :=
  downcast_timestamps (to_arrow df).
End DataframeToArrow.

(** ** Vocabulary of the claims about dtypes *)

(** A placeholder anywhere in the tree. *)
Fixpoint has_placeholder (d : pl.DataType) : bool :=
  match d with
  | pl.Null => true
  | pl.List inner => has_placeholder inner
  | pl.Array inner _ => has_placeholder inner
  | pl.Struct fields => existsb (fun f => has_placeholder (snd f)) fields
  | _ => false
  end.

(** The four shapes of a column schema node: placeholder, scalar, list,
    struct; nothing else at any depth. *)
Fixpoint schema_node (d : pl.DataType) : bool :=
  match d with
  | pl.List inner => schema_node inner
  | pl.Array _ _ => false
  | pl.Struct fields => forallb (fun f => schema_node (snd f)) fields
  | _ => true
  end.

(** A shape with no branch of its own in the resolver. *)
Definition unrecognized (d : pl.DataType) : bool :=
  match d with
  | pl.Array _ _ => true
  | _ => false
  end.

(** A placeholder the resolver reaches: through lists and structs. *)
Fixpoint pending (d : pl.DataType) : bool :=
  match d with
  | pl.Null => true
  | pl.List inner => pending inner
  | pl.Struct fields => existsb (fun f => pending (snd f)) fields
  | _ => false
  end.


(** A nanosecond timestamp anywhere in an Arrow type. *)
Fixpoint has_ns_timestamp (t : pa.DataType) : bool :=
  match t with
  | pa.timestamp pa.ns _ => true
  | pa.large_list x => has_ns_timestamp x
  | pa.fixed_size_list x _ => has_ns_timestamp x
  | pa.struct fields => existsb (fun f => has_ns_timestamp (snd f)) fields
  | _ => false
  end.

(** ** Vocabulary of the claims about frames *)




(** The field the bridge makes of one Arrow field. *)
Definition downcast_field (f : pa.Field) : pa.Field :=
  match pa.type f with
  | pa.timestamp pa.ns tz => pa.with_type f (pa.timestamp pa.us tz)
  | _ => f
  end.

Definition is_ns_timestamp (t : pa.DataType) : bool :=
  match t with
  | pa.timestamp pa.ns _ => true
  | _ => false
  end.

(** The column the bridge makes of one Arrow column, when it makes one. *)
Definition downcast_column (col : pa.Column) : result pa.Column :=
  if is_ns_timestamp (pa.type (fst col))
  then
    vs <- map_result pa.rescale_ns_to_us (snd col) ;;
    Return (downcast_field (fst col), vs)
  else Return col.

(** A timestamp cell that is null or a whole number of microseconds. *)
Definition whole_microseconds (v : Value) : bool :=
  match v with
  | PyNone => true
  | PyInt n => Z.eqb (Z.modulo n 1000) 0
  | _ => false
  end.

(** Every cell of every top-level nanosecond column is such a cell. *)
Definition ns_columns_whole (df : pl.DataFrame) : bool :=
  forallb
    (fun s =>
       match pl.dtype s with
       | pl.Datetime pl.ns _ => forallb whole_microseconds (pl.values s)
       | _ => true
       end)
    df.

(** The nodes without a branch in the resolver that it meets on its way
    through lists and structs, in order. *)
Fixpoint unrecognized_nodes (d : pl.DataType) : list pl.DataType :=
  match d with
  | pl.List inner => unrecognized_nodes inner
  | pl.Struct fields => flat_map (fun f => unrecognized_nodes (snd f)) fields
  | pl.Array _ _ => [d]
  | _ => []
  end.

(** None of those nodes holds a placeholder. *)
Definition unrecognized_settled (d : pl.DataType) : bool :=
  forallb (fun n => negb (has_placeholder n)) (unrecognized_nodes d).

(** A scalar dtype: neither the placeholder nor a holder of other dtypes. *)
Definition is_scalar (d : pl.DataType) : bool :=
  match d with
  | pl.Null | pl.List _ | pl.Array _ _ | pl.Struct _ => false
  | _ => true
  end.

(** A dtype that holds other dtypes. *)
Definition nested_dtype (d : pl.DataType) : bool :=
  match d with
  | pl.List _ | pl.Array _ _ | pl.Struct _ => true
  | _ => false
  end.

(* ================================================================== *)
(** * The rest of the pipeline: records, configuration, writer         *)
(* ================================================================== *)

(** Exceptions of the outer layers: those the functions above raise,
    those the interpreter raises on a value of the wrong type, and those
    of the catalog client. *)
Inductive Exn : Type :=
| Builtin (e : PyExn)
| AttributeError (obj_type attribute : string)
| TypeError (msg : string)
| NamespaceAlreadyExistsError
| NoSuchTableError
| CatalogFailure (detail : string).

Inductive run (A : Type) : Type :=
| Done (a : A)
| Failed (e : Exn).
Arguments Done {A} a.
Arguments Failed {A} e.

Definition run_bind {A B : Type} (r : run A) (k : A -> run B) : run B :=
  match r with
  | Done a => k a
  | Failed e => Failed e
  end.

(** ** [load_and_flatten], between [json.load] and [pl.DataFrame] *)

(** [flatten_record(r, separator)] on whatever [r] is: the first thing
    the body does is [record.items()]. *)
Definition flatten_record_call (r : Value) (separator : string)
  : run (dict Value) :=
  match r with
  | PyDict record => Done (flatten_record record separator "")
  | _ => Failed (AttributeError (type_name r) "items")
  end.

(** [for r in records] *)
Definition iterate (records : Value) : run (list Value) :=
  match records with
  | PyList l => Done l
  | PyDict d => Done (map PyStr (keys d))
  | PyStr s =>
      Done (map (fun c => PyStr (String c EmptyString)) (list_ascii_of_string s))
  | _ => Failed (TypeError (type_name records))
  end.

(** [[flatten_record(r, separator) for r in records]] *)
Fixpoint flatten_each (records : list Value) (separator : string)
  : run (list (dict Value)) :=
  match records with
  | [] => Done []
  | r :: rest =>
      run_bind (flatten_record_call r separator) (fun flat =>
      run_bind (flatten_each rest separator) (fun flats =>
      Done (flat :: flats)))
  end.

(** [records = _detect_records(raw)] followed by the comprehension. *)
Definition flatten_records (raw : Value) (separator : string)
  : run (list (dict Value)) :=
  match _detect_records raw with
  | Raise e => Failed (Builtin e)
  | Return records =>
      run_bind (iterate records) (fun rs => flatten_each rs separator)
  end.

(** A record none of whose values is a mapping. *)
Definition flat_values (record : dict Value) : bool :=
  forallb (fun kv => negb (isinstance_dict (snd kv))) record.

(** ** config.py *)

Module config.

Record Config : Type := mkConfig {
  catalog_uri : string;
  warehouse : string;
  s3_endpoint : string;
  s3_access_key : string;
  s3_secret_key : string;
  s3_region : string;
  namespace : string;
  table_name : string
}.

(** [os.environ.get(key, default)] *)
Definition environ_get (environ : dict string) (key default : string) : string :=
  match dict_get environ key with
  | Some v => v
  | None => default
  end.

Definition field_names : list string :=
  ["catalog_uri"; "warehouse"; "s3_endpoint"; "s3_access_key";
   "s3_secret_key"; "s3_region"; "namespace"; "table_name"].

(** A field takes the keyword argument when one is given and the value
    of its [default_factory] otherwise. *)
Definition field_value (kwargs : dict string) (field : string)
  (factory : string) : string :=
  match dict_get kwargs field with
  | Some v => v
  | None => factory
  end.

(** The constructor, called with keyword arguments. *)
Definition init (environ kwargs : dict string) : run Config :=
  if forallb (fun k => existsb (String.eqb k) field_names) (keys kwargs)
  then
    Done
      {| catalog_uri :=
           field_value kwargs "catalog_uri"
             (environ_get environ "ICEBERG_REST_URI" "http://localhost:8181");
         warehouse :=
           field_value kwargs "warehouse"
             (environ_get environ "ICEBERG_WAREHOUSE" "s3://warehouse/");
         s3_endpoint :=
           field_value kwargs "s3_endpoint"
             (environ_get environ "S3_ENDPOINT" "http://localhost:9000");
         s3_access_key :=
           field_value kwargs "s3_access_key"
             (environ_get environ "S3_ACCESS_KEY" "admin");
         s3_secret_key :=
           field_value kwargs "s3_secret_key"
             (environ_get environ "S3_SECRET_KEY" "password");
         s3_region :=
           field_value kwargs "s3_region"
             (environ_get environ "S3_REGION" "us-east-1");
         namespace :=
           field_value kwargs "namespace"
             (environ_get environ "ICEBERG_NAMESPACE" "default");
         table_name :=
           field_value kwargs "table_name"
             (environ_get environ "ICEBERG_TABLE" "raw") |}
  else Failed (TypeError "__init__() got an unexpected keyword argument").

Definition catalog_properties (self : Config) : dict string :=
  [("uri", catalog_uri self);
   ("warehouse", warehouse self);
   ("s3.endpoint", s3_endpoint self);
   ("s3.access-key-id", s3_access_key self);
   ("s3.secret-access-key", s3_secret_key self);
   ("s3.region", s3_region self)].

End config.

(** ** cli.py: the configuration [_ingest] builds *)

(** [args.namespace] and [args.table] are [None] unless the flag is
    given; [if args.namespace:] also skips the empty string. *)
Definition ingest_overrides (args_namespace args_table : option string)
  : dict string :=
  let overrides : dict string := [] in
  let overrides :=
    match args_namespace with
    | Some ns =>
        if truthy (PyStr ns) then dict_set overrides "namespace" ns
        else overrides
    | None => overrides
    end in
  let overrides :=
    match args_table with
    | Some t =>
        if truthy (PyStr t) then dict_set overrides "table_name" t
        else overrides
    | None => overrides
    end in
  overrides.

Definition ingest_config (environ : dict string)
  (args_namespace args_table : option string) : run config.Config :=
  config.init environ (ingest_overrides args_namespace args_table).

(** What a flag contributes: its value when given and non-empty. *)
Definition flag_or (flag : option string) (fallback : string) : string :=
  match flag with
  | Some v => if String.eqb v "" then fallback else v
  | None => fallback
  end.

(** ** writer.py *)


(** Step 1 of [write_to_iceberg]: [resolve_null_types(df)] with its
    default, then [dataframe_to_arrow]. *)
Definition arrow_of_frame
  (convert : pl.DataType -> pl.DataType -> Value -> Value)
  (cast_other : pa.DataType -> pa.DataType -> list Value -> result (list Value))
  (df : pl.DataFrame) : result pa.Table :=
  resolved <- resolve_null_types convert df _DEFAULT_TYPE ;;
  dataframe_to_arrow cast_other resolved.

(** The catalog client: every call acts on the state of the remote
    service and either returns or raises. *)
Record RestCatalog (World Catalog TableRef : Type) : Type := {
  load_catalog : string -> dict string -> World -> World * run Catalog;
  create_namespace : Catalog -> string -> World -> World * run unit;
  load_table : Catalog -> string -> World -> World * run TableRef;
  create_table :
    Catalog -> string -> list pa.Field -> World -> World * run TableRef;
  overwrite : TableRef -> pa.Table -> World -> World * run unit;
  append : TableRef -> pa.Table -> World -> World * run unit
}.
Arguments load_catalog {World Catalog TableRef} _ _ _ _.
Arguments create_namespace {World Catalog TableRef} _ _ _ _.
Arguments load_table {World Catalog TableRef} _ _ _ _.
Arguments create_table {World Catalog TableRef} _ _ _ _ _.
Arguments overwrite {World Catalog TableRef} _ _ _ _.
Arguments append {World Catalog TableRef} _ _ _ _.

Section Writer.
Context {World Catalog TableRef : Type}.
Variable api : RestCatalog World Catalog TableRef.
Variable convert : pl.DataType -> pl.DataType -> Value -> Value.
Variable cast_other :
  pa.DataType -> pa.DataType -> list Value -> result (list Value).

Definition io_bind {A B : Type} (m : World -> World * run A)
  (k : A -> World -> World * run B) : World -> World * run B :=
  fun w =>
    match m w with
    | (w', Done a) => k a w'
    | (w', Failed e) => (w', Failed e)
    end.

Definition get_catalog (cfg : config.Config) : World -> World * run Catalog :=
  load_catalog api "rest" (config.catalog_properties cfg).

Definition ensure_namespace (catalog : Catalog) (namespace : string)
  : World -> World * run unit :=
  fun w =>
    match create_namespace api catalog namespace w with
    | (w', Failed NamespaceAlreadyExistsError) => (w', Done tt)
    | outcome => outcome
    end.

(** The [try: load_table ... except NoSuchTableError: create_table] block. *)
Definition load_or_create_table (catalog : Catalog) (table_id : string)
  (arrow_table : pa.Table) : World -> World * run TableRef :=
  fun w =>
    match load_table api catalog table_id w with
    | (w', Failed NoSuchTableError) =>
        create_table api catalog table_id (pa.schema arrow_table) w'
    | outcome => outcome
    end.

Definition write_to_iceberg (cfg : config.Config) (df : pl.DataFrame)
  (mode : string) : World -> World * run unit :=
  fun w =>
    match arrow_of_frame convert cast_other df with
    | Raise e => (w, Failed (Builtin e))
    | Return arrow_table =>
        io_bind (get_catalog cfg) (fun catalog =>
        io_bind (ensure_namespace catalog (config.namespace cfg)) (fun _ =>
        let table_id :=
          (config.namespace cfg ++ "." ++ config.table_name cfg)%string in
        io_bind (load_or_create_table catalog table_id arrow_table) (fun table =>
        if String.eqb mode "overwrite"
        then overwrite api table arrow_table
        else append api table arrow_table))) w
    end.
End Writer.

(** An in-memory stand-in for the catalog service, to run the writer on:
    namespaces, and per table identifier a schema and the batches
    written. *)
Definition MemoryWorld : Type :=
  (list string * dict (list pa.Field * list pa.Table))%type.

Definition memory_catalog : RestCatalog MemoryWorld unit string :=
  {| load_catalog := fun _ _ w => (w, Done tt);
     create_namespace := fun _ ns w =>
       if existsb (String.eqb ns) (fst w)
       then (w, Failed NamespaceAlreadyExistsError)
       else ((fst w ++ [ns], snd w), Done tt);
     load_table := fun _ table_id w =>
       match dict_get (snd w) table_id with
       | Some _ => (w, Done table_id)
       | None => (w, Failed NoSuchTableError)
       end;
     create_table := fun _ table_id fields w =>
       ((fst w, dict_set (snd w) table_id (fields, [])), Done table_id);
     overwrite := fun table t w =>
       match dict_get (snd w) table with
       | Some (fields, _) =>
           ((fst w, dict_set (snd w) table (fields, [t])), Done tt)
       | None => (w, Failed NoSuchTableError)
       end;
     append := fun table t w =>
       match dict_get (snd w) table with
       | Some (fields, batches) =>
           ((fst w, dict_set (snd w) table (fields, batches ++ [t])), Done tt)
       | None => (w, Failed NoSuchTableError)
       end |}.

(** The same service with an unreachable table endpoint. *)
Definition failing_catalog : RestCatalog MemoryWorld unit string :=
  {| load_catalog := load_catalog memory_catalog;
     create_namespace := create_namespace memory_catalog;
     load_table := fun _ _ w => (w, Failed (CatalogFailure "503"));
     create_table := create_table memory_catalog;
     overwrite := overwrite memory_catalog;
     append := append memory_catalog |}.

(* ================================================================== *)
(** * Verification                                                     *)
(* ================================================================== *)

(** ** Induction over nested values *)

Section ValueInduction.
Variable P : Value -> Prop.
Hypothesis HNone : P PyNone.
Hypothesis HBool : forall b, P (PyBool b).
Hypothesis HInt : forall n, P (PyInt n).
Hypothesis HFloat : forall m e, P (PyFloat m e).
Hypothesis HStr : forall s, P (PyStr s).
Hypothesis HList : forall l, Forall P l -> P (PyList l).
Hypothesis HDict :
  forall items, Forall (fun kv => P (snd kv)) items -> P (PyDict items).

Fixpoint Value_nested_ind (v : Value) : P v :=
  match v with
  | PyNone => HNone
  | PyBool b => HBool b
  | PyInt n => HInt n
  | PyFloat m e => HFloat m e
  | PyStr s => HStr s
  | PyList l =>
      HList l
        ((fix go (l : list Value) : Forall P l :=
            match l with
            | [] => Forall_nil P
            | x :: r => Forall_cons x (Value_nested_ind x) (go r)
            end) l)
  | PyDict items =>
      HDict items
        ((fix go (l : list (string * Value))
            : Forall (fun kv => P (snd kv)) l :=
            match l with
            | [] => Forall_nil _
            | kv :: r =>
                Forall_cons kv (Value_nested_ind (snd kv)) (go r)
            end) items)
  end.
End ValueInduction.

(** ** Dictionaries *)

Section DictFacts.
Context {V : Type}.
Implicit Types (d e : dict V) (k : string) (v : V).

Lemma dict_set_keys_in d k v :
  In k (keys d) -> keys (dict_set d k v) = keys d.
Proof.
  induction d as [|[k' v'] d IH]; simpl; [tauto|].
  intros H. destruct (String.eqb_spec k' k) as [->|Hne]; simpl; [reflexivity|].
  f_equal. apply IH. destruct H; [contradiction|assumption].
Qed.

Lemma dict_set_keys_notin d k v :
  ~ In k (keys d) -> dict_set d k v = d ++ [(k, v)].
Proof.
  induction d as [|[k' v'] d IH]; simpl; [reflexivity|].
  intros H. destruct (String.eqb_spec k' k) as [->|Hne]; [tauto|].
  f_equal. apply IH. tauto.
Qed.

Lemma dict_set_In_keys d k v : In k (keys (dict_set d k v)).
Proof.
  induction d as [|[k' v'] d IH]; simpl; [auto|].
  destruct (String.eqb_spec k' k) as [->|Hne]; simpl; auto.
Qed.

Lemma dict_set_keys_mono d k k' v : In k (keys d) -> In k (keys (dict_set d k' v)).
Proof.
  induction d as [|[k0 v0] d IH]; simpl; [tauto|].
  destruct (String.eqb_spec k0 k'); simpl; intuition.
Qed.

Lemma dict_set_NoDup d k v : NoDup (keys d) -> NoDup (keys (dict_set d k v)).
Proof.
  intros H. destruct (in_dec string_dec k (keys d)) as [Hin|Hnin].
  - rewrite dict_set_keys_in; assumption.
  - rewrite dict_set_keys_notin by assumption. unfold keys.
    rewrite map_app. simpl. apply NoDup_app; [assumption|repeat constructor; simpl; tauto|].
    intros x Hx [<-|[]]. contradiction.
Qed.

Lemma dict_set_twice d k v0 v : dict_set (dict_set d k v0) k v = dict_set d k v.
Proof.
  induction d as [|[k' v'] d IH]; simpl.
  - rewrite String.eqb_refl. reflexivity.
  - destruct (String.eqb_spec k' k) as [->|Hne]; simpl.
    + rewrite String.eqb_refl. reflexivity.
    + destruct (String.eqb_spec k' k); [contradiction|]. f_equal. apply IH.
Qed.

Lemma dict_set_swap d k v k' v' :
  In k (keys d) -> k <> k' ->
  dict_set (dict_set d k' v') k v = dict_set (dict_set d k v) k' v'.
Proof.
  induction d as [|[k0 v0] d IH]; simpl; [tauto|].
  intros Hin Hne.
  destruct (String.eqb_spec k0 k') as [Hk'|Hk']; destruct (String.eqb_spec k0 k) as [Hk|Hk];
    simpl; try congruence.
  - destruct (String.eqb_spec k0 k); [congruence|].
    destruct (String.eqb_spec k0 k'); [reflexivity|congruence].
  - destruct (String.eqb_spec k0 k'); [congruence|].
    destruct (String.eqb_spec k0 k); [reflexivity|congruence].
  - destruct (String.eqb_spec k0 k'); [congruence|].
    destruct (String.eqb_spec k0 k); [congruence|].
    f_equal. apply IH; [|assumption]. destruct Hin; [congruence|assumption].
Qed.

Lemma dict_update_app d l1 l2 :
  dict_update d (l1 ++ l2) = dict_update (dict_update d l1) l2.
Proof. unfold dict_update. apply fold_left_app. Qed.

Lemma dict_update_NoDup l : forall d, NoDup (keys d) -> NoDup (keys (dict_update d l)).
Proof.
  induction l as [|[k v] l IH]; intros d H; simpl; [assumption|].
  apply IH. apply dict_set_NoDup. assumption.
Qed.

(** Overwriting a key that is present commutes with later updates. *)
Lemma dict_update_set_present l : forall d k v,
  In k (keys d) -> ~ In k (keys l) ->
  dict_update (dict_set d k v) l = dict_set (dict_update d l) k v.
Proof.
  induction l as [|[k' v'] l IH]; intros d k v Hin Hnin; simpl; [reflexivity|].
  simpl in Hnin.
  change (dict_update (dict_set (dict_set d k v) k' v') l =
          dict_set (dict_update (dict_set d k' v') l) k v).
  rewrite <- dict_set_swap by (auto; intros ->; tauto).
  apply IH; [apply dict_set_keys_mono; assumption|tauto].
Qed.

Lemma dict_update_set e : forall d k v,
  NoDup (keys e) ->
  dict_update d (dict_set e k v) = dict_set (dict_update d e) k v.
Proof.
  induction e as [|[k0 v0] e IH]; intros d k v Hnd; simpl; [reflexivity|].
  inversion Hnd as [|? ? Hnotin Hnd']; subst.
  destruct (String.eqb_spec k0 k) as [->|Hne].
  - change (dict_update (dict_set d k v) e =
            dict_set (dict_update (dict_set d k v0) e) k v).
    rewrite <- (dict_set_twice d k v0 v).
    apply dict_update_set_present; [apply dict_set_In_keys|assumption].
  - change (dict_update (dict_set d k0 v0) (dict_set e k v) =
            dict_set (dict_update (dict_set d k0 v0) e) k v).
    apply IH. assumption.
Qed.

(** Updating with a dictionary built from entries is updating with the
    entries themselves. *)
Lemma dict_update_built l : forall d e,
  NoDup (keys e) ->
  dict_update d (dict_update e l) = dict_update (dict_update d e) l.
Proof.
  induction l as [|[k v] l IH]; intros d e Hnd; simpl; [reflexivity|].
  change (dict_update d (dict_update (dict_set e k v) l) =
          dict_update (dict_set (dict_update d e) k v) l).
  rewrite IH by (apply dict_set_NoDup; assumption).
  rewrite dict_update_set by assumption. reflexivity.
Qed.

Lemma dict_get_set d k v k' :
  dict_get (dict_set d k v) k' = if String.eqb k k' then Some v else dict_get d k'.
Proof.
  induction d as [|[k0 v0] d IH]; simpl; [reflexivity|].
  destruct (String.eqb_spec k0 k) as [->|Hne]; simpl.
  - destruct (String.eqb_spec k k'); reflexivity.
  - rewrite IH. destruct (String.eqb_spec k0 k') as [->|]; [|reflexivity].
    destruct (String.eqb_spec k k'); [congruence|reflexivity].
Qed.

Lemma dict_get_app d e k :
  dict_get (d ++ e) k =
  match dict_get d k with Some v => Some v | None => dict_get e k end.
Proof.
  induction d as [|[k0 v0] d IH]; simpl; [reflexivity|].
  destruct (String.eqb k0 k); [reflexivity|apply IH].
Qed.

Lemma dict_get_update l : forall d k,
  dict_get (dict_update d l) k =
  match dict_get (rev l) k with Some v => Some v | None => dict_get d k end.
Proof.
  induction l as [|[k0 v0] l IH]; intros d k; simpl; [reflexivity|].
  unfold dict_update in *. simpl. rewrite IH, dict_get_app, dict_get_set. simpl.
  destruct (dict_get (rev l) k); [reflexivity|].
  destruct (String.eqb k0 k); reflexivity.
Qed.
End DictFacts.

(** ** The flattener *)

Lemma flatten_record_unfold record separator _prefix :
  flatten_record record separator _prefix =
  flatten_items separator _prefix record [].
Proof.
  unfold flatten_record. simpl. generalize (@nil (string * Value)).
  induction record as [|[key value] rest IH]; intros flat; simpl; [reflexivity|].
  destruct value; rewrite IH; reflexivity.
Qed.

Lemma spec_leaves_dict items separator parent :
  spec_leaves (PyDict items) separator parent = spec_walk separator parent items.
Proof.
  simpl. induction items as [|[key value] rest IH]; simpl; [reflexivity|].
  destruct value; rewrite IH; reflexivity.
Qed.

Lemma full_key_of_empty separator key : full_key_of "" separator key = key.
Proof. reflexivity. Qed.

Lemma full_key_of_nonempty _prefix separator key :
  _prefix <> "" ->
  full_key_of _prefix separator key = (_prefix ++ separator ++ key)%string.
Proof.
  intros H. unfold full_key_of. simpl.
  destruct (String.eqb_spec _prefix ""); [contradiction|reflexivity].
Qed.

Lemma append_nonempty (a b : string) : a <> "" -> (a ++ b)%string <> "".
Proof. destruct a; simpl; congruence. Qed.

Lemma flatten_items_NoDup separator : forall items _prefix flat,
  NoDup (keys flat) -> NoDup (keys (flatten_items separator _prefix items flat)).
Proof.
  induction items as [|[key value] rest IH]; intros _prefix flat H; simpl; [assumption|].
  destruct value; apply IH;
    try (apply dict_set_NoDup; assumption).
  apply dict_update_NoDup. assumption.
Qed.

Lemma flatten_record_NoDup record separator _prefix :
  NoDup (keys (flatten_record record separator _prefix)).
Proof.
  rewrite flatten_record_unfold. apply flatten_items_NoDup. constructor.
Qed.

(** Below a non-empty prefix the loop, started from any accumulator,
    inserts the leaves in order, whatever the keys are. *)
Lemma flatten_items_below separator : forall obj,
  match obj with
  | PyDict items =>
      forall _prefix flat,
        _prefix <> "" ->
        flatten_items separator _prefix items flat =
        dict_update flat (spec_walk separator (Some _prefix) items)
  | _ => True
  end.
Proof.
  induction obj as [ | | | | | |items IH] using Value_nested_ind; try exact I.
  induction items as [|[key value] rest IHrest]; intros _prefix flat Hp;
    [reflexivity|].
  inversion IH as [|? ? Hhead Htail]; subst. simpl in Hhead.
  specialize (IHrest Htail).
  simpl. rewrite full_key_of_nonempty by exact Hp.
  destruct value as [ | | | | | |inner];
    try (rewrite IHrest by exact Hp; reflexivity).
  rewrite IHrest by exact Hp.
  rewrite dict_update_app. f_equal.
  rewrite flatten_record_unfold.
  rewrite (Hhead _ []) by (apply append_nonempty; exact Hp).
  rewrite spec_leaves_dict.
  symmetry. rewrite <- (dict_update_built _ flat []) by constructor.
  reflexivity.
Qed.

(** At the top level the same holds as soon as no mapping stands under
    the empty key. *)
Lemma flatten_items_top separator : forall items flat,
  top_level_mappings_named items = true ->
  flatten_items separator "" items flat =
  dict_update flat (spec_walk separator None items).
Proof.
  induction items as [|[key value] rest IH]; intros flat Hnamed; [reflexivity|].
  simpl in Hnamed. apply andb_prop in Hnamed. destruct Hnamed as [Hkey Hrest].
  simpl. rewrite full_key_of_empty.
  destruct value as [ | | | | | |inner];
    try (rewrite IH by exact Hrest; reflexivity).
  simpl in Hkey. apply negb_true_iff in Hkey.
  assert (Hk : key <> "") by (intros ->; discriminate).
  rewrite IH by exact Hrest.
  rewrite dict_update_app. f_equal.
  rewrite flatten_record_unfold.
  rewrite (flatten_items_below separator (PyDict inner) key [] Hk).
  rewrite spec_leaves_dict.
  symmetry. rewrite <- (dict_update_built _ flat []) by constructor.
  reflexivity.
Qed.

Lemma spec_walk_leaves separator : forall obj,
  match obj with
  | PyDict items =>
      forall parent key value,
        In (key, value) (spec_walk separator parent items) ->
        isinstance_dict value = false
  | _ => True
  end.
Proof.
  induction obj as [ | | | | | |items IH] using Value_nested_ind; try exact I.
  induction items as [|[k v] rest IHrest]; intros parent key value Hin;
    [destruct Hin|].
  inversion IH as [|? ? Hhead Htail]; subst. simpl in Hhead.
  specialize (IHrest Htail). simpl in Hin.
  destruct v as [ | | | | | |inner];
    try (destruct Hin as [Heq|Hin];
         [inversion Heq; subst; reflexivity|exact (IHrest _ _ _ Hin)]).
  apply in_app_or in Hin. destruct Hin as [Hin|Hin].
  - rewrite spec_leaves_dict in Hin. exact (Hhead _ _ _ Hin).
  - exact (IHrest _ _ _ Hin).
Qed.

(** C7, as worded, fails on two inputs.  With separator ["."] the record
    [{"a.b": [1], "a": {"b": 2}}] has the sequence leaf [[1]] at flat key
    ["a.b"], yet the flattened record holds [2] there; and in
    [{"": {"b": 1}}] the leaf below the empty key is stored under ["b"],
    not under ["" + "." + "b"]. *)
Lemma flatten_record_not_every_leaf_kept :
  (In ("a.b", PyList [PyInt 1])
      (spec_leaves
         (PyDict [("a.b", PyList [PyInt 1]); ("a", PyDict [("b", PyInt 2)])])
         "." None)
   /\ flatten_record
        [("a.b", PyList [PyInt 1]); ("a", PyDict [("b", PyInt 2)])] "." ""
      = [("a.b", PyInt 2)])
  /\ (spec_leaves (PyDict [("", PyDict [("b", PyInt 1)])]) "." None
      = [(".b", PyInt 1)]
      /\ flatten_record [("", PyDict [("b", PyInt 1)])] "." ""
         = [("b", PyInt 1)]).
Proof.
  repeat split; try reflexivity. simpl. left. reflexivity.
Qed.

(** C7 (amended): for every record in which no top-level key leading
    into a nested mapping is empty, and every separator, [flatten_record]
    recurses into nested mappings only and builds each key as parent
    prefix + separator + key, with the bare key at depth 0; the result has
    one entry per distinct flat key, in order of first occurrence, holding
    verbatim the value (sequence, null or scalar, never a mapping) of the
    last leaf that flattens to that key; the empty record flattens to the
    empty mapping. *)
Theorem flatten_record_last_leaf_wins :
  forall (record : dict Value) (separator : string),
    top_level_mappings_named record = true ->
    flatten_record record separator ""
      = last_wins (spec_leaves (PyDict record) separator None)
    /\ NoDup (keys (flatten_record record separator ""))
    /\ (forall key,
          dict_get (flatten_record record separator "") key
          = dict_get (rev (spec_leaves (PyDict record) separator None)) key)
    /\ (forall key value,
          In (key, value) (spec_leaves (PyDict record) separator None) ->
          isinstance_dict value = false)
    /\ flatten_record [] separator "" = [].
Proof.
  intros record separator Hnamed.
  assert (Heq : flatten_record record separator ""
                = last_wins (spec_leaves (PyDict record) separator None)).
  { rewrite flatten_record_unfold, spec_leaves_dict.
    exact (flatten_items_top separator record [] Hnamed). }
  split; [exact Heq|].
  split; [apply flatten_record_NoDup|].
  split.
  - intros key. rewrite Heq. unfold last_wins. rewrite dict_get_update.
    destruct (dict_get (rev _) key); reflexivity.
  - split; [|reflexivity].
    intros key value Hin. rewrite spec_leaves_dict in Hin.
    exact (spec_walk_leaves separator (PyDict record) None key value Hin).
Qed.

Lemma flatten_record_last_leaf_wins_witness :
  top_level_mappings_named
    [("id", PyInt 1); ("meta", PyDict [("", PyDict [("name", PyStr "test")])]);
     ("tags", PyList [PyInt 1; PyInt 2]); ("", PyNone)] = true
  /\ flatten_record
       [("id", PyInt 1); ("meta", PyDict [("", PyDict [("name", PyStr "test")])]);
        ("tags", PyList [PyInt 1; PyInt 2]); ("", PyNone)] "." ""
     = [("id", PyInt 1); ("meta..name", PyStr "test");
        ("tags", PyList [PyInt 1; PyInt 2]); ("", PyNone)].
Proof.
  split; [reflexivity|].
  rewrite (proj1 (flatten_record_last_leaf_wins
             [("id", PyInt 1);
              ("meta", PyDict [("", PyDict [("name", PyStr "test")])]);
              ("tags", PyList [PyInt 1; PyInt 2]); ("", PyNone)] "."
             eq_refl)).
  reflexivity.
Defined.

(** C9: flattened keys can collide.  A literal key equal to the composite
    key of a nested path ends in one entry for that key, and the path
    iterated later supplies the value, whichever of the two it is. *)
Theorem flatten_record_key_collision :
  forall (parent key separator : string) (literal nested : Value),
    parent <> "" ->
    isinstance_dict literal = false ->
    isinstance_dict nested = false ->
    flatten_record
      [((parent ++ separator ++ key)%string, literal);
       (parent, PyDict [(key, nested)])] separator ""
      = [((parent ++ separator ++ key)%string, nested)]
    /\ flatten_record
         [(parent, PyDict [(key, nested)]);
          ((parent ++ separator ++ key)%string, literal)] separator ""
       = [((parent ++ separator ++ key)%string, literal)].
Proof.
  intros parent key separator literal nested Hp Hl Hn.
  rewrite !flatten_record_unfold.
  assert (Hinner : flatten_record [(key, nested)] separator parent
                   = [((parent ++ separator ++ key)%string, nested)]).
  { rewrite flatten_record_unfold. simpl.
    rewrite full_key_of_nonempty by assumption.
    destruct nested; try reflexivity. discriminate. }
  split; simpl; rewrite !full_key_of_empty, Hinner.
  - destruct literal; try discriminate; simpl; rewrite String.eqb_refl; reflexivity.
  - destruct literal; try discriminate; simpl; rewrite String.eqb_refl; reflexivity.
Qed.

Lemma flatten_record_key_collision_witness :
  flatten_record [("a.b", PyInt 1); ("a", PyDict [("b", PyInt 2)])] "." ""
    = [("a.b", PyInt 2)]
  /\ flatten_record [("a", PyDict [("b", PyInt 2)]); ("a.b", PyInt 1)] "." ""
    = [("a.b", PyInt 1)].
Proof.
  apply (flatten_record_key_collision "a" "b" "." (PyInt 1) (PyInt 2));
    [discriminate|reflexivity|reflexivity].
Defined.

(** ** The record-set detector *)

Lemma scan_values_app_hit pre value post :
  (forall v, In v pre -> is_record_list v = false) ->
  is_record_list value = true ->
  scan_values (pre ++ value :: post) = Some value.
Proof.
  induction pre as [|v pre IH]; intros Hpre Hv; simpl.
  - rewrite Hv. reflexivity.
  - rewrite (Hpre v) by (left; reflexivity). apply IH; [|assumption].
    intros w Hw. apply Hpre. right. assumption.
Qed.

Lemma scan_values_miss values :
  (forall v, In v values -> is_record_list v = false) ->
  scan_values values = None.
Proof.
  induction values as [|v values IH]; intros H; simpl; [reflexivity|].
  rewrite (H v) by (left; reflexivity). apply IH.
  intros w Hw. apply H. right. assumption.
Qed.

Lemma detect_records_dict items :
  _detect_records (PyDict items) =
  match scan_values (dict_values items) with
  | Some value => Return value
  | None => Return (PyList [PyDict items])
  end.
Proof. reflexivity. Qed.

(** C5: on a mapping root the detector returns the first value, in
    insertion order, that is a non-empty sequence whose first element is a
    mapping, whatever follows it; when no value qualifies it returns the
    root wrapped as a one-record sequence. *)
Theorem detect_records_first_match :
  forall (items : dict Value),
    (forall before key value after,
        items = before ++ (key, value) :: after ->
        (forall kv, In kv before -> is_record_list (snd kv) = false) ->
        is_record_list value = true ->
        _detect_records (PyDict items) = Return value)
    /\ ((forall kv, In kv items -> is_record_list (snd kv) = false) ->
        _detect_records (PyDict items) = Return (PyList [PyDict items])).
Proof.
  intros items. split.
  - intros before key value after -> Hbefore Hvalue.
    rewrite detect_records_dict. unfold dict_values. rewrite map_app. simpl.
    rewrite scan_values_app_hit; [reflexivity| |assumption].
    intros v Hv. apply in_map_iff in Hv. destruct Hv as [kv [<- Hkv]].
    apply Hbefore. assumption.
  - intros Hnone. rewrite detect_records_dict.
    rewrite scan_values_miss; [reflexivity|]. unfold dict_values.
    intros v Hv. apply in_map_iff in Hv. destruct Hv as [kv [<- Hkv]].
    apply Hnone. assumption.
Qed.

Lemma detect_records_first_match_witness :
  _detect_records
    (PyDict [("count", PyInt 2);
             ("data", PyList [PyDict [("a", PyInt 1)]]);
             ("more", PyList [PyDict [("b", PyInt 2)]])])
    = Return (PyList [PyDict [("a", PyInt 1)]])
  /\ _detect_records (PyDict [("a", PyInt 1)])
     = Return (PyList [PyDict [("a", PyInt 1)]]).
Proof.
  split.
  - apply (proj1 (detect_records_first_match _)
             [("count", PyInt 2)] "data" _
             [("more", PyList [PyDict [("b", PyInt 2)]])] eq_refl).
    + intros kv [<-|[]]. reflexivity.
    + reflexivity.
  - apply (proj2 (detect_records_first_match [("a", PyInt 1)])).
    intros kv [<-|[]]. reflexivity.
Defined.


(** ** Dtypes *)

Section DataTypeInduction.
Variable P : pl.DataType -> Prop.
Hypothesis HNull : P pl.Null.
Hypothesis HBoolean : P pl.Boolean.
Hypothesis HInt64 : P pl.Int64.
Hypothesis HFloat64 : P pl.Float64.
Hypothesis HUtf8 : P pl.Utf8.
Hypothesis HDate : P pl.Date.
Hypothesis HDatetime : forall u z, P (pl.Datetime u z).
Hypothesis HList : forall inner, P inner -> P (pl.List inner).
Hypothesis HArray : forall inner w, P inner -> P (pl.Array inner w).
Hypothesis HStruct :
  forall fields, Forall (fun f => P (snd f)) fields -> P (pl.Struct fields).

Fixpoint DataType_nested_ind (d : pl.DataType) : P d :=
  match d with
  | pl.Null => HNull
  | pl.Boolean => HBoolean
  | pl.Int64 => HInt64
  | pl.Float64 => HFloat64
  | pl.Utf8 => HUtf8
  | pl.Date => HDate
  | pl.Datetime u z => HDatetime u z
  | pl.List inner => HList inner (DataType_nested_ind inner)
  | pl.Array inner w => HArray inner w (DataType_nested_ind inner)
  | pl.Struct fields =>
      HStruct fields
        ((fix go (l : list (string * pl.DataType))
            : Forall (fun f => P (snd f)) l :=
            match l with
            | [] => Forall_nil _
            | f :: r => Forall_cons f (DataType_nested_ind (snd f)) (go r)
            end) fields)
  end.
End DataTypeInduction.






(** ** The resolver on one dtype *)

Lemma resolve_Null default : _resolve_dtype pl.Null default = default.
Proof. reflexivity. Qed.

Lemma resolve_List inner default :
  _resolve_dtype (pl.List inner) default = pl.List (_resolve_dtype inner default).
Proof. reflexivity. Qed.

Lemma resolve_Struct fields default :
  _resolve_dtype (pl.Struct fields) default =
  pl.Struct (map (fun f => (fst f, _resolve_dtype (snd f) default)) fields).
Proof. reflexivity. Qed.

Lemma resolve_settled default : forall d,
  pending d = false -> _resolve_dtype d default = d.
Proof.
  induction d as [ | | | | | |u z|inner IH|inner w IH|fields IH]
    using DataType_nested_ind; intros Hp; try reflexivity; try discriminate.
  - rewrite resolve_List. f_equal. apply IH. exact Hp.
  - rewrite resolve_Struct. f_equal. simpl in Hp.
    induction IH as [|[n t] fs Ht _ IHfs]; [reflexivity|].
    simpl in Hp, Ht |- *. apply orb_false_iff in Hp. destruct Hp as [H1 H2].
    rewrite Ht by assumption. f_equal. apply IHfs. assumption.
Qed.



Lemma resolve_no_placeholder default :
  has_placeholder default = false ->
  forall d, schema_node d = true ->
            has_placeholder (_resolve_dtype d default) = false.
Proof.
  intros Hd.
  induction d as [ | | | | | |u z|inner IH|inner w IH|fields IH]
    using DataType_nested_ind; intros Hn; try reflexivity; try discriminate.
  - exact Hd.
  - rewrite resolve_List. simpl. apply IH. exact Hn.
  - rewrite resolve_Struct. simpl in Hn |- *.
    induction IH as [|[n t] fs Ht _ IHfs]; [reflexivity|].
    simpl in Hn, Ht |- *. apply andb_prop in Hn. destruct Hn as [H1 H2].
    rewrite Ht, IHfs by assumption. reflexivity.
Qed.

(** C1: the resolver rewrites depth-first.  A placeholder becomes the
    default; a list is rebuilt around its resolved inner type; a struct is
    rebuilt with the same field names in the same order, each field type
    resolved; and with a placeholder-free default, a tree made of
    placeholder, scalar, list and struct nodes has no placeholder left at
    any depth. *)
Theorem resolve_dtype_rewrites :
  forall (default : pl.DataType),
    _resolve_dtype pl.Null default = default
    /\ (forall inner,
          _resolve_dtype (pl.List inner) default
          = pl.List (_resolve_dtype inner default))
    /\ (forall fields,
          exists fields',
            _resolve_dtype (pl.Struct fields) default = pl.Struct fields'
            /\ map fst fields' = map fst fields
            /\ map snd fields'
               = map (fun t => _resolve_dtype t default) (map snd fields))
    /\ (has_placeholder default = false ->
        forall d, schema_node d = true ->
                  has_placeholder (_resolve_dtype d default) = false).
Proof.
  intros default.
  split; [reflexivity|]. split; [reflexivity|]. split.
  - intros fields. eexists. split; [apply resolve_Struct|].
    rewrite !map_map. split; reflexivity.
  - apply resolve_no_placeholder.
Qed.

Lemma resolve_dtype_rewrites_witness :
  has_placeholder pl.Utf8 = false
  /\ schema_node
       (pl.List (pl.Struct [("x", pl.Null); ("y", pl.Int64)])) = true
  /\ has_placeholder
       (_resolve_dtype
          (pl.List (pl.Struct [("x", pl.Null); ("y", pl.Int64)])) pl.Utf8)
     = false.
Proof.
  split; [reflexivity|]. split; [reflexivity|].
  apply (proj2 (proj2 (proj2 (resolve_dtype_rewrites pl.Utf8))));
    reflexivity.
Defined.

(** ** The resolver on a frame *)

Section FrameFacts.
Variable convert : pl.DataType -> pl.DataType -> Value -> Value.
Variable default : pl.DataType.















Lemma collect_casts_keys df : forall acc,
  incl (keys (fold_left
                (fun casts nd =>
                   let resolved := _resolve_dtype (snd nd) default in
                   if negb (pl.dtype_eqb resolved (snd nd))
                   then dict_set casts (fst nd) resolved
                   else casts)
                (pl.schema df) acc))
       (pl.columns df ++ keys acc).
Proof.
  induction df as [|s df IH]; intros acc; simpl.
  - apply incl_refl.
  - set (acc' := if negb _ then _ else acc).
    assert (Hacc : incl (keys acc') (pl.name s :: keys acc)).
    { subst acc'. destruct (negb _).
      - intros k Hk. destruct (in_dec string_dec (pl.name s) (keys acc)) as [Hi|Hn].
        + rewrite dict_set_keys_in in Hk by exact Hi. right. exact Hk.
        + rewrite dict_set_keys_notin in Hk by exact Hn.
          unfold keys in Hk. rewrite map_app in Hk.
          apply in_app_or in Hk. destruct Hk as [Hk|[<-|[]]];
            [right; exact Hk|left; reflexivity].
      - apply incl_tl. apply incl_refl. }
    intros k Hk. apply IH in Hk.
    apply in_app_or in Hk. destruct Hk as [Hk|Hk].
    + right. apply in_or_app. left. exact Hk.
    + apply Hacc in Hk. destruct Hk as [<-|Hk]; [left; reflexivity|].
      right. apply in_or_app. right. exact Hk.
Qed.

Lemma get_column_some df n :
  In n (pl.columns df) -> exists s, pl.get_column df n = Some s.
Proof.
  induction df as [|c df IH]; simpl; [tauto|].
  intros [<-|Hin].
  - rewrite String.eqb_refl. eexists; reflexivity.
  - destruct (String.eqb (pl.name c) n); [eexists; reflexivity|auto].
Qed.

Lemma with_columns_from_returns df : forall exprs acc,
  (forall n t, In (pl.col_cast n t) exprs -> In n (pl.columns df)) ->
  exists out, pl.with_columns_from convert df exprs acc = Return out.
Proof.
  induction exprs as [|[n t] exprs IH]; intros acc H; simpl.
  - eexists; reflexivity.
  - destruct (get_column_some df n) as [s Hs]; [apply (H n t); left; reflexivity|].
    rewrite Hs. simpl. apply IH. intros n' t' Hin. apply (H n' t'). right. exact Hin.
Qed.

(** The resolver raises on no frame. *)
Lemma resolve_null_types_returns df :
  exists out, resolve_null_types convert df default = Return out.
Proof.
  unfold resolve_null_types.
  destruct (collect_casts df default) as [|c casts] eqn:Hc;
    [eexists; reflexivity|].
  rewrite <- Hc. apply with_columns_from_returns.
  intros n t Hin. apply in_map_iff in Hin. destruct Hin as [[k v] [Heq Hin]].
  inversion Heq; subst.
  assert (Hk : In n (keys (collect_casts df default))).
  { unfold keys. apply in_map_iff. exists (n, t). split; [reflexivity|exact Hin]. }
  unfold collect_casts in Hk. apply collect_casts_keys in Hk.
  simpl in Hk. rewrite app_nil_r in Hk. exact Hk.
Qed.
End FrameFacts.

(** ** Casts along a resolution keep row values *)

Section CastFacts.
Variable convert : pl.DataType -> pl.DataType -> Value -> Value.
Variable default : pl.DataType.




End CastFacts.

Lemma scalar_settled default :
  is_scalar default = true ->
  unrecognized_nodes default = [] /\ has_placeholder default = false.
Proof. destruct default; try discriminate; intros _; split; reflexivity. Qed.

(** C2, as worded, fails: a fixed-size array is a shape the resolver has
    no branch for, and it comes back as it went in; the frame-level call
    returns the frame and raises nothing. *)
Lemma resolve_unrecognized_not_raised :
  unrecognized (pl.Array pl.Int64 2) = true
  /\ _resolve_dtype (pl.Array pl.Int64 2) pl.Utf8 = pl.Array pl.Int64 2
  /\ resolve_null_types (fun _ _ v => v)
       [pl.mkSeries "c" (pl.Array pl.Int64 2) [PyNone]] pl.Utf8
     = Return [pl.mkSeries "c" (pl.Array pl.Int64 2) [PyNone]]
  /\ ~ (exists e,
          resolve_null_types (fun _ _ v => v)
            [pl.mkSeries "c" (pl.Array pl.Int64 2) [PyNone]] pl.Utf8
          = Raise e).
Proof.
  repeat split; try reflexivity.
  intros [e He]. discriminate He.
Qed.

(** C2 (amended): a shape the resolver does not recognise raises
    nothing.  For a scalar default and a schema tree whose unrecognised
    nodes hold no placeholder, the resolver returns a tree with the same
    unrecognised nodes, unchanged and in the same order, and with every
    placeholder around them resolved: none is left at any depth. *)
Theorem resolve_passes_other_shapes_through :
  forall (d default : pl.DataType),
    is_scalar default = true ->
    unrecognized_settled d = true ->
    unrecognized_nodes (_resolve_dtype d default) = unrecognized_nodes d
    /\ has_placeholder (_resolve_dtype d default) = false.
Proof.
  intros d default Hdef. destruct (scalar_settled default Hdef) as [Hnodes Hnone].
  induction d as [ | | | | | |u z|inner IH|inner w IH|fields IH]
    using DataType_nested_ind; intros Hd;
    try (split; reflexivity).
  - rewrite resolve_Null. split; assumption.
  - rewrite resolve_List. simpl. apply IH. exact Hd.
  - split; [reflexivity|].
    unfold unrecognized_settled in Hd. simpl unrecognized_nodes in Hd.
    simpl forallb in Hd. rewrite andb_true_r in Hd.
    apply negb_true_iff in Hd. exact Hd.
  - rewrite resolve_Struct. simpl.
    unfold unrecognized_settled in Hd. simpl in Hd.
    induction IH as [|[n t] fs Ht _ IHfs]; [split; reflexivity|].
    simpl in Hd, Ht |- *. rewrite forallb_app in Hd.
    apply andb_prop in Hd. destruct Hd as [Hhead Htail].
    destruct (Ht Hhead) as [Ht1 Ht2]. destruct (IHfs Htail) as [Hf1 Hf2].
    rewrite Ht1, Ht2, Hf1, Hf2. split; reflexivity.
Qed.

Lemma resolve_passes_other_shapes_through_witness :
  unrecognized_nodes
    (_resolve_dtype
       (pl.Struct [("grid", pl.List (pl.Array pl.Int64 2)); ("note", pl.Null)])
       pl.Utf8)
  = [pl.Array pl.Int64 2]
  /\ has_placeholder
       (_resolve_dtype
          (pl.Struct [("grid", pl.List (pl.Array pl.Int64 2)); ("note", pl.Null)])
          pl.Utf8)
     = false.
Proof.
  apply (resolve_passes_other_shapes_through
           (pl.Struct [("grid", pl.List (pl.Array pl.Int64 2)); ("note", pl.Null)])
           pl.Utf8); reflexivity.
Defined.






(** ** The Arrow bridge *)

Section MapResult.
Context {A B : Type}.
Variable f : A -> result B.

Lemma map_result_pointwise : forall l l',
  map_result f l = Return l' -> Forall2 (fun a b => f a = Return b) l l'.
Proof.
  induction l as [|a l IH]; intros l' H; simpl in H.
  - inversion H. constructor.
  - destruct (f a) as [b|e] eqn:Ea; [|discriminate]. simpl in H.
    destruct (map_result f l) as [bs|e] eqn:El; [|discriminate]. simpl in H.
    inversion H; subst. constructor; [exact Ea|apply IH; reflexivity].
Qed.

Lemma map_result_returns : forall l,
  (forall a, In a l -> exists b, f a = Return b) ->
  exists l', map_result f l = Return l'.
Proof.
  induction l as [|a l IH]; intros H; simpl.
  - eexists; reflexivity.
  - destruct (H a (or_introl eq_refl)) as [b Hb]. rewrite Hb. simpl.
    destruct IH as [bs Hbs]; [intros x Hx; apply H; right; exact Hx|].
    rewrite Hbs. eexists; reflexivity.
Qed.

Lemma map_result_raised : forall l e,
  map_result f l = Raise e -> exists a, In a l /\ f a = Raise e.
Proof.
  induction l as [|a l IH]; intros e H; simpl in H; [discriminate|].
  destruct (f a) as [b|e'] eqn:Ea; simpl in H.
  - destruct (map_result f l) as [bs|e''] eqn:El; simpl in H; [discriminate|].
    inversion H; subst. destruct (IH e eq_refl) as [x [Hx Hfx]].
    exists x. split; [right; exact Hx|exact Hfx].
  - inversion H; subst. exists a. split; [left; reflexivity|exact Ea].
Qed.
End MapResult.

Lemma Forall2_nth {A B : Type} (R : A -> B -> Prop) : forall l l' i a,
  Forall2 R l l' -> nth_error l i = Some a ->
  exists b, nth_error l' i = Some b /\ R a b.
Proof.
  intros l l' i a H. revert i. induction H as [|x y l l' Hxy _ IH]; intros i Hi.
  - destruct i; discriminate.
  - destruct i as [|i]; simpl in Hi |- *.
    + inversion Hi; subst. exists y. split; [reflexivity|exact Hxy].
    + apply IH. exact Hi.
Qed.

Section ArrowTypeInduction.
Variable P : pa.DataType -> Prop.
Hypothesis Hnull : P pa.null.
Hypothesis Hbool : P pa.bool_.
Hypothesis Hint64 : P pa.int64.
Hypothesis Hfloat64 : P pa.float64.
Hypothesis Hutf8 : P pa.large_utf8.
Hypothesis Hdate32 : P pa.date32.
Hypothesis Htimestamp : forall u z, P (pa.timestamp u z).
Hypothesis Hlist : forall x, P x -> P (pa.large_list x).
Hypothesis Hfixed : forall x n, P x -> P (pa.fixed_size_list x n).
Hypothesis Hstruct :
  forall fields, Forall (fun f => P (snd f)) fields -> P (pa.struct fields).

Fixpoint ArrowType_nested_ind (t : pa.DataType) : P t :=
  match t with
  | pa.null => Hnull
  | pa.bool_ => Hbool
  | pa.int64 => Hint64
  | pa.float64 => Hfloat64
  | pa.large_utf8 => Hutf8
  | pa.date32 => Hdate32
  | pa.timestamp u z => Htimestamp u z
  | pa.large_list x => Hlist x (ArrowType_nested_ind x)
  | pa.fixed_size_list x n => Hfixed x n (ArrowType_nested_ind x)
  | pa.struct fields =>
      Hstruct fields
        ((fix go (l : list (string * pa.DataType))
            : Forall (fun f => P (snd f)) l :=
            match l with
            | [] => Forall_nil _
            | f :: r => Forall_cons f (ArrowType_nested_ind (snd f)) (go r)
            end) fields)
  end.
End ArrowTypeInduction.

Lemma arrow_type_eqb_refl : forall t, pa.type_eqb t t = true.
Proof.
  induction t as [ | | | | | |u z|x IH|x n IH|fields IH]
    using ArrowType_nested_ind; try reflexivity.
  - simpl. destruct u, z as [tz|]; simpl; try reflexivity;
      apply String.eqb_refl.
  - exact IH.
  - simpl. rewrite IH, Nat.eqb_refl. reflexivity.
  - simpl. induction IH as [|[n t] fs Ht _ IHfs]; [reflexivity|].
    simpl in Ht. rewrite String.eqb_refl, Ht, IHfs. reflexivity.
Qed.

Lemma names_eqb_refl : forall names, pa.names_eqb names names = true.
Proof.
  induction names as [|n names IH]; [reflexivity|].
  simpl. rewrite String.eqb_refl, IH. reflexivity.
Qed.

Lemma downcast_field_other f :
  is_ns_timestamp (pa.type f) = false -> downcast_field f = f.
Proof.
  unfold downcast_field. destruct (pa.type f) as [ | | | | | |u tz| | | ];
    try reflexivity.
  destruct u; try reflexivity. discriminate.
Qed.

Lemma downcast_field_settled f :
  is_ns_timestamp (pa.type (downcast_field f)) = false.
Proof.
  unfold downcast_field.
  destruct (pa.type f) as [ | | | | | |u tz| | | ] eqn:E;
    try (rewrite E; reflexivity).
  destruct u; try (rewrite E; reflexivity). reflexivity.
Qed.

Lemma downcast_field_name f : pa.name (downcast_field f) = pa.name f.
Proof.
  unfold downcast_field. destruct (pa.type f) as [ | | | | | |u tz| | | ];
    try reflexivity.
  destruct u; reflexivity.
Qed.

Lemma downcast_loop : forall fields new_fields needs_cast,
  fold_left downcast_step fields (new_fields, needs_cast)
  = (new_fields ++ map downcast_field fields,
     needs_cast || existsb (fun f => is_ns_timestamp (pa.type f)) fields).
Proof.
  induction fields as [|f fields IH]; intros new_fields needs_cast; simpl.
  - rewrite app_nil_r, orb_false_r. reflexivity.
  - unfold downcast_field at 1.
    destruct (pa.type f) as [ | | | | | |u tz| | | ]; simpl;
      try (rewrite IH, <- app_assoc; reflexivity).
    destruct u; simpl; rewrite IH, <- app_assoc; try reflexivity.
    simpl. rewrite orb_true_r. reflexivity.
Qed.

Lemma downcast_column_quiet col :
  is_ns_timestamp (pa.type (fst col)) = false -> downcast_column col = Return col.
Proof. intros H. unfold downcast_column. rewrite H. reflexivity. Qed.

Lemma downcast_column_field col col' :
  downcast_column col = Return col' -> fst col' = downcast_field (fst col).
Proof.
  unfold downcast_column.
  destruct (is_ns_timestamp (pa.type (fst col))) eqn:E.
  - destruct (map_result pa.rescale_ns_to_us (snd col)); simpl;
      intros H; inversion H; reflexivity.
  - intros H. inversion H; subst. symmetry. apply downcast_field_other. exact E.
Qed.

Lemma downcast_column_raised col e :
  downcast_column col = Raise e -> exists msg, e = ArrowInvalid msg.
Proof.
  unfold downcast_column.
  destruct (is_ns_timestamp (pa.type (fst col))); [|discriminate].
  destruct (map_result pa.rescale_ns_to_us (snd col)) as [vs|e'] eqn:E; simpl;
    intros H; inversion H; subst.
  apply map_result_raised in E. destruct E as [v [_ Hv]].
  destruct v; simpl in Hv; try (inversion Hv; eexists; reflexivity).
  destruct (Z.eqb _ 0); inversion Hv. eexists; reflexivity.
Qed.

Section BridgeFacts.
Variable cast_other :
  pa.DataType -> pa.DataType -> list Value -> result (list Value).

(** The cast the bridge asks for, on one column. *)
Lemma cast_array_downcast (f : pa.Field) vs :
  pa.cast_array cast_other (pa.type f) (pa.type (downcast_field f)) vs
  = if is_ns_timestamp (pa.type f)
    then map_result pa.rescale_ns_to_us vs
    else Return vs.
Proof.
  unfold downcast_field, pa.cast_array.
  destruct (pa.type f) as [ | | | | | |u tz| | | ] eqn:E;
    try (rewrite E, arrow_type_eqb_refl; reflexivity).
  destruct u; try (rewrite E, arrow_type_eqb_refl; reflexivity).
  reflexivity.
Qed.

Lemma cast_pairs : forall t : pa.Table,
  map_result
    (fun cf : pa.Column * pa.Field =>
       vs <- pa.cast_array cast_other (pa.type (fst (fst cf))) (pa.type (snd cf))
               (snd (fst cf)) ;;
       Return (snd cf, vs))
    (combine t (map downcast_field (pa.schema t)))
  = map_result downcast_column t.
Proof.
  induction t as [|[f vs] t IH]; [reflexivity|].
  simpl. rewrite cast_array_downcast, IH. unfold downcast_column. simpl.
  destruct (is_ns_timestamp (pa.type f)) eqn:E; simpl.
  - destruct (map_result pa.rescale_ns_to_us vs); reflexivity.
  - rewrite (downcast_field_other f E). reflexivity.
Qed.

Lemma map_result_quiet : forall t : pa.Table,
  existsb (fun f => is_ns_timestamp (pa.type f)) (pa.schema t) = false ->
  map_result downcast_column t = Return t.
Proof.
  induction t as [|col t IH]; intros H; [reflexivity|].
  simpl in H. apply orb_false_iff in H. destruct H as [Hcol Ht].
  simpl. rewrite (downcast_column_quiet col Hcol), (IH Ht). reflexivity.
Qed.

(** The bridge acts column by column. *)
Lemma downcast_timestamps_columns t :
  downcast_timestamps cast_other t = map_result downcast_column t.
Proof.
  unfold downcast_timestamps. rewrite downcast_loop. simpl.
  destruct (existsb _ (pa.schema t)) eqn:E.
  - unfold pa.cast.
    assert (Hnames : map pa.name (map downcast_field (pa.schema t))
                     = map pa.name (pa.schema t)).
    { rewrite map_map. apply map_ext. apply downcast_field_name. }
    rewrite Hnames, names_eqb_refl. apply cast_pairs.
  - symmetry. apply map_result_quiet. exact E.
Qed.

Lemma downcast_timestamps_pointwise t t' :
  downcast_timestamps cast_other t = Return t' ->
  Forall2 (fun col col' => downcast_column col = Return col') t t'.
Proof.
  rewrite downcast_timestamps_columns. apply map_result_pointwise.
Qed.

Lemma downcast_timestamps_schema t t' :
  downcast_timestamps cast_other t = Return t' ->
  pa.schema t' = map downcast_field (pa.schema t).
Proof.
  intros H. apply downcast_timestamps_pointwise in H.
  induction H as [|col col' t t' Hcol _ IH]; [reflexivity|].
  simpl. rewrite (downcast_column_field col col' Hcol), IH. reflexivity.
Qed.

Lemma downcast_timestamps_quiet t :
  existsb (fun f => is_ns_timestamp (pa.type f)) (pa.schema t) = false ->
  downcast_timestamps cast_other t = Return t.
Proof.
  intros H. rewrite downcast_timestamps_columns. apply map_result_quiet. exact H.
Qed.

Lemma downcast_fields_settled fields :
  existsb (fun f => is_ns_timestamp (pa.type f)) (map downcast_field fields)
  = false.
Proof.
  induction fields as [|f fields IH]; [reflexivity|].
  simpl. rewrite downcast_field_settled, IH. reflexivity.
Qed.

(** What the bridge returns at the place of a column of the frame. *)
Lemma dataframe_to_arrow_column df table i s :
  dataframe_to_arrow cast_other df = Return table ->
  nth_error df i = Some s ->
  exists col,
    nth_error table i = Some col
    /\ downcast_column
         (pa.field (pl.name s) (to_arrow_type (pl.dtype s)), pl.values s)
       = Return col.
Proof.
  intros H Hi. unfold dataframe_to_arrow in H.
  apply downcast_timestamps_pointwise in H.
  apply (Forall2_nth _ _ _ i _ H).
  unfold to_arrow. rewrite nth_error_map, Hi. reflexivity.
Qed.

Lemma to_arrow_nested_not_timestamp d :
  nested_dtype d = true -> is_ns_timestamp (to_arrow_type d) = false.
Proof. destruct d; try discriminate; reflexivity. Qed.

Lemma to_arrow_ns_timestamp d :
  is_ns_timestamp (to_arrow_type d) = true ->
  exists tz, d = pl.Datetime pl.ns tz.
Proof.
  destruct d as [ | | | | | |u z| | | ]; try discriminate.
  destruct u; try discriminate. intros _. exists z. reflexivity.
Qed.

Lemma to_arrow_other_not_ns d :
  (forall tz, d <> pl.Datetime pl.ns tz) ->
  is_ns_timestamp (to_arrow_type d) = false.
Proof.
  intros H. destruct (is_ns_timestamp (to_arrow_type d)) eqn:E; [|reflexivity].
  apply to_arrow_ns_timestamp in E. destruct E as [tz E].
  exfalso. exact (H tz E).
Qed.

Lemma to_arrow_no_ns_column df :
  (forall s, In s df -> forall tz, pl.dtype s <> pl.Datetime pl.ns tz) ->
  existsb (fun f => is_ns_timestamp (pa.type f)) (pa.schema (to_arrow df))
  = false.
Proof.
  induction df as [|s df IH]; intros H; [reflexivity|].
  simpl. rewrite to_arrow_other_not_ns by (apply H; left; reflexivity).
  apply IH. intros c Hc. apply H. right. exact Hc.
Qed.

Lemma rescale_whole vs :
  forallb whole_microseconds vs = true ->
  exists vs', map_result pa.rescale_ns_to_us vs = Return vs'.
Proof.
  intros H. apply map_result_returns. intros v Hv.
  rewrite forallb_forall in H. specialize (H v Hv).
  destruct v; try discriminate; simpl in H |- *.
  - eexists; reflexivity.
  - rewrite H. eexists; reflexivity.
Qed.

(** Whole microseconds in every nanosecond column: the bridge returns. *)
Lemma dataframe_to_arrow_returns df :
  ns_columns_whole df = true ->
  exists table, dataframe_to_arrow cast_other df = Return table.
Proof.
  intros H. unfold dataframe_to_arrow. rewrite downcast_timestamps_columns.
  apply map_result_returns. intros col Hcol.
  unfold to_arrow in Hcol. apply in_map_iff in Hcol.
  destruct Hcol as [s [<- Hs]].
  unfold ns_columns_whole in H. rewrite forallb_forall in H.
  specialize (H s Hs). unfold downcast_column. simpl.
  destruct (is_ns_timestamp (to_arrow_type (pl.dtype s))) eqn:E;
    [|eexists; reflexivity].
  apply to_arrow_ns_timestamp in E. destruct E as [tz E]. rewrite E in H.
  destruct (rescale_whole _ H) as [vs' Hvs]. rewrite Hvs.
  eexists; reflexivity.
Qed.
End BridgeFacts.

(** C8: the bridge does not downgrade every nanosecond column.  When a
    top-level nanosecond timestamp column holds a count that is not a
    whole number of microseconds, the checked cast refuses it and the
    bridge raises instead of returning a table. *)
Theorem dataframe_to_arrow_rejects_sub_microsecond :
  forall (cast_other :
            pa.DataType -> pa.DataType -> list Value -> result (list Value))
         (df : pl.DataFrame) (s : pl.Series) (tz : option string) (n : Z),
    In s df ->
    pl.dtype s = pl.Datetime pl.ns tz ->
    In (PyInt n) (pl.values s) ->
    Z.modulo n 1000 <> 0%Z ->
    exists msg, dataframe_to_arrow cast_other df = Raise (ArrowInvalid msg).
Proof.
  intros cast_other df s tz n Hs Hd Hn Hmod.
  destruct (dataframe_to_arrow cast_other df) as [table|e] eqn:E.
  - exfalso. destruct (In_nth_error _ _ Hs) as [i Hi].
    destruct (dataframe_to_arrow_column cast_other df table i s E Hi)
      as [col [_ Hcol]].
    unfold downcast_column in Hcol. simpl in Hcol. rewrite Hd in Hcol.
    simpl in Hcol.
    destruct (map_result pa.rescale_ns_to_us (pl.values s)) as [vs|e] eqn:Ev;
      [|discriminate].
    apply map_result_pointwise in Ev.
    destruct (In_nth_error _ _ Hn) as [j Hj].
    destruct (Forall2_nth _ _ _ j _ Ev Hj) as [v [_ Hv]].
    simpl in Hv. destruct (Z.eqb_spec (Z.modulo n 1000) 0);
      [contradiction|discriminate].
  - unfold dataframe_to_arrow in E. rewrite downcast_timestamps_columns in E.
    apply map_result_raised in E. destruct E as [col [_ Hcol]].
    apply downcast_column_raised in Hcol. destruct Hcol as [msg ->].
    exists msg. reflexivity.
Qed.

Lemma dataframe_to_arrow_rejects_sub_microsecond_witness :
  exists msg,
    dataframe_to_arrow (fun _ _ vs => Return vs)
      [pl.mkSeries "id" pl.Int64 [PyInt 7];
       pl.mkSeries "ts" (pl.Datetime pl.ns (Some "UTC")) [PyInt 1000; PyInt 1]]
    = Raise (ArrowInvalid msg).
Proof.
  apply (dataframe_to_arrow_rejects_sub_microsecond (fun _ _ vs => Return vs)
           [pl.mkSeries "id" pl.Int64 [PyInt 7];
            pl.mkSeries "ts" (pl.Datetime pl.ns (Some "UTC"))
              [PyInt 1000; PyInt 1]]
           (pl.mkSeries "ts" (pl.Datetime pl.ns (Some "UTC"))
              [PyInt 1000; PyInt 1])
           (Some "UTC") 1%Z).
  - right. left. reflexivity.
  - reflexivity.
  - right. left. reflexivity.
  - discriminate.
Defined.

(** C10: the downcast looks at the type of each top-level field only.
    Whenever the bridge returns a table, a list, array or struct column
    that holds a nanosecond timestamp stands in it with its Arrow type
    and its rows as [to_arrow] gave them, the nanosecond timestamp still
    inside; and the bridge does return on every frame without a
    top-level nanosecond column, as the table [to_arrow] gave. *)
Theorem dataframe_to_arrow_keeps_nested_ns :
  forall (cast_other :
            pa.DataType -> pa.DataType -> list Value -> result (list Value))
         (df : pl.DataFrame),
    (forall table i s,
        dataframe_to_arrow cast_other df = Return table ->
        nth_error df i = Some s ->
        nested_dtype (pl.dtype s) = true ->
        has_ns_timestamp (to_arrow_type (pl.dtype s)) = true ->
        nth_error table i
        = Some (pa.field (pl.name s) (to_arrow_type (pl.dtype s)), pl.values s)
        /\ exists col,
             nth_error table i = Some col
             /\ has_ns_timestamp (pa.type (fst col)) = true)
    /\ ((forall s, In s df -> forall tz, pl.dtype s <> pl.Datetime pl.ns tz) ->
        dataframe_to_arrow cast_other df = Return (to_arrow df)).
Proof.
  intros cast_other df. split.
  - intros table i s Htable Hi Hnested Hns.
    destruct (dataframe_to_arrow_column cast_other df table i s Htable Hi)
      as [col [Hcol Hdown]].
    rewrite downcast_column_quiet in Hdown
      by (apply to_arrow_nested_not_timestamp; exact Hnested).
    inversion Hdown; subst col. split; [exact Hcol|].
    eexists. split; [exact Hcol|exact Hns].
  - intros Hnone. unfold dataframe_to_arrow.
    apply downcast_timestamps_quiet. apply to_arrow_no_ns_column. exact Hnone.
Qed.

Lemma dataframe_to_arrow_keeps_nested_ns_witness :
  dataframe_to_arrow (fun _ _ vs => Return vs)
    [pl.mkSeries "ts" (pl.Datetime pl.ns None) [PyInt 5000];
     pl.mkSeries "events"
       (pl.List (pl.Struct [("at", pl.Datetime pl.ns (Some "UTC"))]))
       [PyList [PyDict [("at", PyInt 1)]]]]
  = Return
      [(pa.field "ts" (pa.timestamp pa.us None), [PyInt 5]);
       (pa.field "events"
          (pa.large_list (pa.struct [("at", pa.timestamp pa.ns (Some "UTC"))])),
        [PyList [PyDict [("at", PyInt 1)]]])]
  /\ nth_error
       [(pa.field "ts" (pa.timestamp pa.us None), [PyInt 5]);
        (pa.field "events"
           (pa.large_list (pa.struct [("at", pa.timestamp pa.ns (Some "UTC"))])),
         [PyList [PyDict [("at", PyInt 1)]]])]
       1
     = Some
         (pa.field "events"
            (pa.large_list (pa.struct [("at", pa.timestamp pa.ns (Some "UTC"))])),
          [PyList [PyDict [("at", PyInt 1)]]]).
Proof.
  split; [reflexivity|].
  apply (proj1 (proj1 (dataframe_to_arrow_keeps_nested_ns
                         (fun _ _ vs => Return vs)
                         [pl.mkSeries "ts" (pl.Datetime pl.ns None) [PyInt 5000];
                          pl.mkSeries "events"
                            (pl.List
                               (pl.Struct
                                  [("at", pl.Datetime pl.ns (Some "UTC"))]))
                            [PyList [PyDict [("at", PyInt 1)]]]])
                  _ 1
                  (pl.mkSeries "events"
                     (pl.List
                        (pl.Struct [("at", pl.Datetime pl.ns (Some "UTC"))]))
                     [PyList [PyDict [("at", PyInt 1)]]])
                  eq_refl eq_refl eq_refl eq_refl)).
Defined.

(** ** More on the flattener *)

Lemma string_append_assoc (a b c : string) :
  ((a ++ b) ++ c)%string = (a ++ b ++ c)%string.
Proof. induction a as [|x a IH]; simpl; [reflexivity|]. rewrite IH. reflexivity. Qed.

Lemma dict_update_fresh {V : Type} (d : dict V) :
  NoDup (keys d) -> dict_update [] d = d.
Proof.
  induction d as [|[k v] d IH] using rev_ind; intros Hnd; [reflexivity|].
  unfold keys in Hnd. rewrite map_app in Hnd. simpl in Hnd.
  assert (Hd : NoDup (keys d)) by (apply NoDup_app_remove_r in Hnd; exact Hnd).
  assert (Hk : ~ In k (keys d)).
  { apply NoDup_remove_2 in Hnd. rewrite app_nil_r in Hnd. exact Hnd. }
  rewrite dict_update_app, IH by exact Hd. simpl.
  apply dict_set_keys_notin. exact Hk.
Qed.

Lemma dict_set_entries {V : Type} (d : dict V) k v k' v' :
  In (k', v') (dict_set d k v) -> In (k', v') d \/ (k' = k /\ v' = v).
Proof.
  induction d as [|[k0 v0] d IH]; simpl.
  - intros [H|[]]. inversion H. auto.
  - destruct (String.eqb_spec k0 k) as [->|Hne]; simpl.
    + intros [H|H]; [inversion H; auto|auto].
    + intros [H|H]; [auto|]. destruct (IH H); auto.
Qed.

Lemma dict_update_entries {V : Type} (l : dict V) : forall d k v,
  In (k, v) (dict_update d l) -> In (k, v) d \/ In (k, v) l.
Proof.
  induction l as [|[k0 v0] l IH]; intros d k v H; [left; exact H|].
  unfold dict_update in H. simpl in H. apply IH in H.
  destruct H as [H|H]; [|right; right; exact H].
  apply dict_set_entries in H. destruct H as [H|[-> ->]]; [left; exact H|].
  right. left. reflexivity.
Qed.

Lemma flatten_items_app separator _prefix : forall a b flat,
  flatten_items separator _prefix (a ++ b) flat
  = flatten_items separator _prefix b (flatten_items separator _prefix a flat).
Proof.
  induction a as [|[key value] a IH]; intros b flat; simpl; [reflexivity|].
  destruct value; apply IH.
Qed.

(** The loop adds to its accumulator what it builds from nothing. *)
Lemma flatten_items_acc separator _prefix : forall items flat,
  flatten_items separator _prefix items flat
  = dict_update flat (flatten_items separator _prefix items []).
Proof.
  induction items as [|[key value] rest IH]; intros flat; [reflexivity|].
  assert (Hscalar : forall v,
             flatten_items separator _prefix rest
               (dict_set flat (full_key_of _prefix separator key) v)
             = dict_update flat
                 (flatten_items separator _prefix rest
                    (dict_set [] (full_key_of _prefix separator key) v))).
  { intros v. rewrite IH. rewrite (IH (dict_set [] _ v)).
    rewrite dict_update_built by (repeat constructor; simpl; tauto).
    reflexivity. }
  destruct value as [ | | | | | |inner]; try (simpl; apply Hscalar).
  simpl. rewrite IH. rewrite (IH (dict_update [] _)).
  rewrite dict_update_built by (apply dict_update_NoDup; constructor).
  f_equal. symmetry. apply (dict_update_built _ flat []). constructor.
Qed.

Lemma flatten_items_values separator : forall obj,
  match obj with
  | PyDict items =>
      forall _prefix flat key value,
        (forall k v, In (k, v) flat -> isinstance_dict v = false) ->
        In (key, value) (flatten_items separator _prefix items flat) ->
        isinstance_dict value = false
  | _ => True
  end.
Proof.
  induction obj as [ | | | | | |items IH] using Value_nested_ind; try exact I.
  induction items as [|[k v] rest IHrest]; intros _prefix flat key value Hflat Hin;
    [exact (Hflat _ _ Hin)|].
  inversion IH as [|? ? Hhead Htail]; subst. simpl in Hhead.
  specialize (IHrest Htail). simpl in Hin.
  assert (Hscalar : forall x,
             isinstance_dict x = false ->
             In (key, value)
                (flatten_items separator _prefix rest
                   (dict_set flat (full_key_of _prefix separator k) x)) ->
             isinstance_dict value = false).
  { intros x Hx Hin'. apply (IHrest _ _ _ _) in Hin'; [exact Hin'|].
    intros k' v' Hk. apply dict_set_entries in Hk.
    destruct Hk as [Hk|[_ ->]]; [exact (Hflat _ _ Hk)|exact Hx]. }
  destruct v as [ | | | | | |inner];
    try (eapply Hscalar; [|exact Hin]; reflexivity).
  apply (IHrest _ _ _ _) in Hin; [exact Hin|].
  intros k' v' Hk. apply dict_update_entries in Hk.
  destruct Hk as [Hk|Hk]; [exact (Hflat _ _ Hk)|].
  rewrite flatten_record_unfold in Hk.
  apply (Hhead _ [] _ _) in Hk; [exact Hk|]. intros ? ? [].
Qed.

(** X1: whatever the record, the separator and the prefix, no value of
    the flattened record is a mapping. *)
Theorem flatten_record_holds_no_mapping :
  forall (record : dict Value) (separator _prefix key : string) (value : Value),
    In (key, value) (flatten_record record separator _prefix) ->
    isinstance_dict value = false.
Proof.
  intros record separator _prefix key value Hin.
  rewrite flatten_record_unfold in Hin.
  apply (flatten_items_values separator (PyDict record) _prefix [] key value);
    [intros ? ? []|exact Hin].
Qed.

Lemma flatten_record_holds_no_mapping_witness :
  isinstance_dict (PyList [PyDict [("id", PyInt 1)]]) = false.
Proof.
  apply (flatten_record_holds_no_mapping
           [("user", PyDict [("items", PyList [PyDict [("id", PyInt 1)]])])]
           "." "" "user.items").
  left. reflexivity.
Defined.

Lemma flatten_items_flat separator : forall items flat,
  flat_values items = true ->
  flatten_items separator "" items flat = dict_update flat items.
Proof.
  induction items as [|[key value] rest IH]; intros flat Hflat; [reflexivity|].
  simpl in Hflat. apply andb_prop in Hflat. destruct Hflat as [Hv Hrest].
  simpl. rewrite full_key_of_empty.
  destruct value; try discriminate; apply IH; exact Hrest.
Qed.

(** X2: a record with distinct keys and no mapping among its values is
    its own flattening. *)
Theorem flatten_record_flat_is_fixed :
  forall (record : dict Value) (separator : string),
    NoDup (keys record) ->
    flat_values record = true ->
    flatten_record record separator "" = record.
Proof.
  intros record separator Hnd Hflat.
  rewrite flatten_record_unfold, flatten_items_flat by exact Hflat.
  apply dict_update_fresh. exact Hnd.
Qed.

Lemma flatten_record_flat_is_fixed_witness :
  flatten_record
    [("a", PyInt 1); ("tags", PyList [PyStr "x"]); ("n", PyNone)] "." ""
  = [("a", PyInt 1); ("tags", PyList [PyStr "x"]); ("n", PyNone)].
Proof.
  apply flatten_record_flat_is_fixed.
  - repeat constructor; simpl; intuition discriminate.
  - reflexivity.
Defined.

Lemma flat_values_of_entries record :
  (forall k v, In (k, v) record -> isinstance_dict v = false) ->
  flat_values record = true.
Proof.
  intros H. apply forallb_forall. intros [k v] Hin. simpl.
  rewrite (H k v Hin). reflexivity.
Qed.

(** X3: flattening is idempotent, also when the second pass uses another
    separator. *)
Theorem flatten_record_idempotent :
  forall (record : dict Value) (separator separator' : string),
    flatten_record (flatten_record record separator "") separator' ""
    = flatten_record record separator "".
Proof.
  intros record separator separator'.
  rewrite (flatten_record_unfold (flatten_record record separator "")).
  rewrite flatten_items_flat.
  - apply dict_update_fresh. apply flatten_record_NoDup.
  - apply flat_values_of_entries. intros k v Hin.
    rewrite flatten_record_unfold in Hin.
    apply (flatten_items_values separator (PyDict record) "" [] k v);
      [intros ? ? []|exact Hin].
Qed.

Lemma flatten_items_prefixed separator : forall obj,
  match obj with
  | PyDict items =>
      forall _prefix flat key value,
        _prefix <> "" ->
        (forall k v, In (k, v) flat ->
                     exists rest, k = (_prefix ++ separator ++ rest)%string) ->
        In (key, value) (flatten_items separator _prefix items flat) ->
        exists rest, key = (_prefix ++ separator ++ rest)%string
  | _ => True
  end.
Proof.
  induction obj as [ | | | | | |items IH] using Value_nested_ind; try exact I.
  induction items as [|[k v] rest IHrest];
    intros _prefix flat key value Hp Hflat Hin; [exact (Hflat _ _ Hin)|].
  inversion IH as [|? ? Hhead Htail]; subst. simpl in Hhead.
  specialize (IHrest Htail). simpl in Hin.
  rewrite full_key_of_nonempty in Hin by exact Hp.
  assert (Hscalar : forall x,
             In (key, value)
                (flatten_items separator _prefix rest
                   (dict_set flat (_prefix ++ separator ++ k)%string x)) ->
             exists r, key = (_prefix ++ separator ++ r)%string).
  { intros x Hin'. apply (IHrest _ _ _ _ Hp) in Hin'; [exact Hin'|].
    intros k' v' Hk. apply dict_set_entries in Hk.
    destruct Hk as [Hk|[-> _]]; [exact (Hflat _ _ Hk)|exists k; reflexivity]. }
  destruct v as [ | | | | | |inner]; try (apply (Hscalar _ Hin)).
  apply (IHrest _ _ _ _ Hp) in Hin; [exact Hin|].
  intros k' v' Hk. apply dict_update_entries in Hk.
  destruct Hk as [Hk|Hk]; [exact (Hflat _ _ Hk)|].
  rewrite flatten_record_unfold in Hk.
  apply (Hhead _ [] _ _) in Hk.
  - destruct Hk as [r ->]. exists (k ++ separator ++ r)%string.
    rewrite !string_append_assoc. reflexivity.
  - apply append_nonempty. exact Hp.
  - intros ? ? [].
Qed.

(** X4: under a non-empty prefix every key of the result starts with the
    prefix followed by the separator. *)
Theorem flatten_record_keys_carry_prefix :
  forall (record : dict Value) (separator _prefix key : string) (value : Value),
    _prefix <> "" ->
    In (key, value) (flatten_record record separator _prefix) ->
    exists rest, key = (_prefix ++ separator ++ rest)%string.
Proof.
  intros record separator _prefix key value Hp Hin.
  rewrite flatten_record_unfold in Hin.
  apply (flatten_items_prefixed separator (PyDict record) _prefix [] key value Hp);
    [intros ? ? []|exact Hin].
Qed.

Lemma flatten_record_keys_carry_prefix_witness :
  exists rest, "user__address__city" = ("user" ++ "__" ++ rest)%string.
Proof.
  apply (flatten_record_keys_carry_prefix
           [("address", PyDict [("city", PyStr "Oslo")])] "__" "user"
           "user__address__city" (PyStr "Oslo")).
  - discriminate.
  - left. reflexivity.
Defined.

(** X5: a key whose value is the empty mapping leaves no entry: the
    record flattens as if the key were absent. *)
Theorem flatten_record_drops_empty_mapping :
  forall (before after : dict Value) (key separator _prefix : string),
    flatten_record (before ++ (key, PyDict []) :: after) separator _prefix
    = flatten_record (before ++ after) separator _prefix.
Proof.
  intros before after key separator _prefix.
  rewrite !flatten_record_unfold, !flatten_items_app. reflexivity.
Qed.

(** X6: at depth 0 a mapping under the empty-string key is flattened as
    if its entries stood in its place at the top level. *)
Theorem flatten_record_empty_key_is_transparent :
  forall (before inner after : dict Value) (separator : string),
    flatten_record (before ++ ("", PyDict inner) :: after) separator ""
    = flatten_record (before ++ inner ++ after) separator "".
Proof.
  intros before inner after separator.
  rewrite !flatten_record_unfold, !flatten_items_app. simpl.
  rewrite full_key_of_empty, flatten_record_unfold.
  rewrite <- flatten_items_acc. reflexivity.
Qed.

(** ** More on the detector, and the records it hands to the flattener *)

Lemma scan_values_found values : forall value,
  scan_values values = Some value ->
  is_record_list value = true /\ In value values.
Proof.
  induction values as [|v values IH]; intros value H; [discriminate|].
  simpl in H. destruct (is_record_list v) eqn:E.
  - inversion H; subst. split; [exact E|left; reflexivity].
  - destruct (IH value H) as [H1 H2]. split; [exact H1|right; exact H2].
Qed.

Lemma is_record_list_shape value :
  is_record_list value = true ->
  exists first rest,
    value = PyList (first :: rest) /\ isinstance_dict first = true.
Proof.
  destruct value as [ | | | | |[|first rest]|]; try discriminate.
  unfold is_record_list. simpl. intros H. exists first, rest. split; [reflexivity|exact H].
Qed.

(** X7: what the detector returns, the detector returns unchanged: a
    second detection on the records is the identity. *)
Theorem detect_records_result_is_stable :
  forall (raw records : Value),
    _detect_records raw = Return records ->
    _detect_records records = Return records.
Proof.
  intros raw records H.
  destruct raw as [ | | | | |l|items]; try discriminate.
  - inversion H; subst. reflexivity.
  - rewrite detect_records_dict in H.
    destruct (scan_values (dict_values items)) as [value|] eqn:E;
      inversion H; subst; [|reflexivity].
    apply scan_values_found in E. destruct E as [E _].
    apply is_record_list_shape in E. destruct E as [first [rest [-> _]]].
    reflexivity.
Qed.

Lemma detect_records_result_is_stable_witness :
  _detect_records (PyList [PyDict [("a", PyInt 1)]])
  = Return (PyList [PyDict [("a", PyInt 1)]]).
Proof.
  apply (detect_records_result_is_stable
           (PyDict [("data", PyList [PyDict [("a", PyInt 1)]]);
                    ("meta", PyDict [("page", PyInt 1)])])).
  reflexivity.
Defined.

(** X8: on a mapping root the detector returns a non-empty list whose
    first element is a mapping. *)
Theorem detect_records_mapping_gives_records :
  forall (items : dict Value),
    exists first rest,
      _detect_records (PyDict items) = Return (PyList (first :: rest))
      /\ isinstance_dict first = true.
Proof.
  intros items. rewrite detect_records_dict.
  destruct (scan_values (dict_values items)) as [value|] eqn:E.
  - apply scan_values_found in E. destruct E as [E _].
    apply is_record_list_shape in E. destruct E as [first [rest [-> Hf]]].
    exists first, rest. split; [reflexivity|exact Hf].
  - exists (PyDict items), []. split; reflexivity.
Qed.

Lemma flatten_each_dicts separator : forall records,
  forallb isinstance_dict records = true ->
  exists rows,
    flatten_each records separator = Done rows
    /\ List.length rows = List.length records
    /\ (forall i record,
          nth_error records i = Some (PyDict record) ->
          nth_error rows i = Some (flatten_record record separator "")).
Proof.
  induction records as [|r records IH]; intros H.
  - exists []. split; [reflexivity|]. split; [reflexivity|].
    intros [|i] record Hi; discriminate.
  - simpl in H. apply andb_prop in H. destruct H as [Hr Hrest].
    destruct (IH Hrest) as [rows [Hrows [Hlen Hnth]]].
    destruct r as [ | | | | | |record0]; try discriminate.
    exists (flatten_record record0 separator "" :: rows).
    split; [simpl; rewrite Hrows; reflexivity|].
    split; [simpl; rewrite Hlen; reflexivity|].
    intros [|i] record Hi; simpl in Hi |- *.
    + inversion Hi; subst. reflexivity.
    + apply Hnth. exact Hi.
Qed.

(** X9: a top-level array of mappings gives one flattened record per
    element, in the order of the input. *)
Theorem flatten_records_rows_follow_input :
  forall (records : list Value) (separator : string),
    forallb isinstance_dict records = true ->
    exists rows,
      flatten_records (PyList records) separator = Done rows
      /\ List.length rows = List.length records
      /\ (forall i record,
            nth_error records i = Some (PyDict record) ->
            nth_error rows i = Some (flatten_record record separator "")).
Proof.
  intros records separator H. apply flatten_each_dicts. exact H.
Qed.

Lemma flatten_records_rows_follow_input_witness :
  exists rows,
    flatten_records
      (PyList [PyDict [("x", PyInt 1); ("nested", PyDict [("y", PyInt 2)])];
               PyDict [("x", PyInt 3); ("nested", PyDict [("y", PyInt 4)])]])
      "."
    = Done rows
    /\ nth_error rows 1 = Some [("x", PyInt 3); ("nested.y", PyInt 4)].
Proof.
  destruct (flatten_records_rows_follow_input
              [PyDict [("x", PyInt 1); ("nested", PyDict [("y", PyInt 2)])];
               PyDict [("x", PyInt 3); ("nested", PyDict [("y", PyInt 4)])]]
              "." eq_refl) as [rows [Hrows [_ Hnth]]].
  exists rows. split; [exact Hrows|].
  apply (Hnth 1 [("x", PyInt 3); ("nested", PyDict [("y", PyInt 4)])]).
  reflexivity.
Defined.

Lemma flatten_each_first_bad separator : forall before bad after,
  forallb isinstance_dict before = true ->
  isinstance_dict bad = false ->
  flatten_each (before ++ bad :: after) separator
  = Failed (AttributeError (type_name bad) "items").
Proof.
  induction before as [|r before IH]; intros bad after Hb Hbad; simpl.
  - destruct bad; try discriminate; reflexivity.
  - simpl in Hb. apply andb_prop in Hb. destruct Hb as [Hr Hrest].
    destruct r; try discriminate. simpl.
    rewrite IH by assumption. reflexivity.
Qed.

(** X10: the detector lets any list through, but the flattening does
    not: the first element of a top-level array that is not a mapping
    stops it with an attribute error naming that element's type. *)
Theorem flatten_records_rejects_non_mapping :
  forall (before after : list Value) (bad : Value) (separator : string),
    forallb isinstance_dict before = true ->
    isinstance_dict bad = false ->
    _detect_records (PyList (before ++ bad :: after))
      = Return (PyList (before ++ bad :: after))
    /\ flatten_records (PyList (before ++ bad :: after)) separator
       = Failed (AttributeError (type_name bad) "items").
Proof.
  intros before after bad separator Hb Hbad. split; [reflexivity|].
  apply flatten_each_first_bad; assumption.
Qed.

Lemma flatten_records_rejects_non_mapping_witness :
  flatten_records (PyList [PyDict [("a", PyInt 1)]; PyInt 5]) "."
  = Failed (AttributeError "int" "items").
Proof.
  apply (proj2 (flatten_records_rejects_non_mapping
                  [PyDict [("a", PyInt 1)]] [] (PyInt 5) "." eq_refl eq_refl)).
Defined.

(** X11: a wrapper object stands for its first array of objects:
    flattening the wrapper gives what flattening that array gives, and
    every other key of the wrapper is ignored. *)
Theorem flatten_records_wrapper_is_its_array :
  forall (before after : dict Value) (key separator : string)
         (records : list Value),
    (forall kv, In kv before -> is_record_list (snd kv) = false) ->
    is_record_list (PyList records) = true ->
    flatten_records (PyDict (before ++ (key, PyList records) :: after)) separator
    = flatten_records (PyList records) separator.
Proof.
  intros before after key separator records Hbefore Hrec.
  unfold flatten_records at 1.
  rewrite detect_records_dict. unfold dict_values. rewrite map_app. simpl.
  rewrite scan_values_app_hit; [reflexivity| |exact Hrec].
  intros v Hv. apply in_map_iff in Hv. destruct Hv as [kv [<- Hkv]].
  apply Hbefore. exact Hkv.
Qed.

Lemma flatten_records_wrapper_is_its_array_witness :
  flatten_records
    (PyDict [("count", PyInt 1);
             ("results", PyList [PyDict [("id", PyInt 1)]]);
             ("next", PyNone)]) "."
  = flatten_records (PyList [PyDict [("id", PyInt 1)]]) ".".
Proof.
  apply (flatten_records_wrapper_is_its_array
           [("count", PyInt 1)] [("next", PyNone)] "results" ".").
  - intros kv [<-|[]]. reflexivity.
  - reflexivity.
Defined.

(** X12: a mapping root with no array of objects among its values is
    ingested as a single record, the flattening of the root itself. *)
Theorem flatten_records_single_object :
  forall (items : dict Value) (separator : string),
    (forall kv, In kv items -> is_record_list (snd kv) = false) ->
    flatten_records (PyDict items) separator
    = Done [flatten_record items separator ""].
Proof.
  intros items separator Hnone. unfold flatten_records.
  rewrite detect_records_dict, scan_values_miss; [reflexivity|].
  unfold dict_values. intros v Hv. apply in_map_iff in Hv.
  destruct Hv as [kv [<- Hkv]]. apply Hnone. exact Hkv.
Qed.

Lemma flatten_records_single_object_witness :
  flatten_records
    (PyDict [("a", PyInt 1); ("tags", PyList []); ("m", PyDict [("k", PyNone)])])
    "."
  = Done [[("a", PyInt 1); ("tags", PyList []); ("m.k", PyNone)]].
Proof.
  rewrite (flatten_records_single_object
             [("a", PyInt 1); ("tags", PyList []); ("m", PyDict [("k", PyNone)])]
             ".").
  - reflexivity.
  - intros kv [<-|[<-|[<-|[]]]]; reflexivity.
Defined.

(** ** More on the Arrow bridge *)



Lemma rescale_cells : forall vs vs',
  map_result pa.rescale_ns_to_us vs = Return vs' ->
  List.length vs' = List.length vs
  /\ forall j v,
       nth_error vs j = Some v ->
       (v = PyNone /\ nth_error vs' j = Some PyNone)
       \/ (exists n,
             v = PyInt n /\ Z.modulo n 1000 = 0%Z
             /\ nth_error vs' j = Some (PyInt (Z.div n 1000))).
Proof.
  intros vs vs' H. apply map_result_pointwise in H.
  induction H as [|v v' vs vs' Hv _ IH].
  - split; [reflexivity|]. intros [|j] v Hj; discriminate.
  - destruct IH as [Hlen Hcells]. split; [simpl; rewrite Hlen; reflexivity|].
    intros [|j] x Hj; simpl in Hj |- *; [|apply Hcells; exact Hj].
    inversion Hj; subst x. destruct v; simpl in Hv; try discriminate.
    + inversion Hv. left. split; reflexivity.
    + destruct (Z.eqb_spec (Z.modulo n 1000) 0) as [Hz|]; [|discriminate].
      inversion Hv. right. exists n. repeat split. exact Hz.
Qed.

(** X13: whenever the bridge returns a table, the table has the columns
    of the frame, with their names and in their order, and every column
    that is not a nanosecond timestamp, a millisecond timestamp included,
    stands in it with the Arrow type of its dtype and its rows
    untouched. *)
Theorem dataframe_to_arrow_touches_ns_only :
  forall (cast_other :
            pa.DataType -> pa.DataType -> list Value -> result (list Value))
         (df : pl.DataFrame) (table : pa.Table),
    dataframe_to_arrow cast_other df = Return table ->
    map pa.name (pa.schema table) = pl.columns df
    /\ (forall i s,
          nth_error df i = Some s ->
          (forall tz, pl.dtype s <> pl.Datetime pl.ns tz) ->
          nth_error table i
          = Some (pa.field (pl.name s) (to_arrow_type (pl.dtype s)),
                  pl.values s)).
Proof.
  intros cast_other df table Htable. split.
  - unfold dataframe_to_arrow in Htable.
    rewrite (downcast_timestamps_schema cast_other _ _ Htable).
    unfold pa.schema, to_arrow, pl.columns. rewrite !map_map.
    apply map_ext. intros s. simpl. apply downcast_field_name.
  - intros i s Hi Hd.
    destruct (dataframe_to_arrow_column cast_other df table i s Htable Hi)
      as [col [Hcol Hdown]].
    rewrite downcast_column_quiet in Hdown
      by (apply to_arrow_other_not_ns; exact Hd).
    inversion Hdown; subst col. exact Hcol.
Qed.

Lemma dataframe_to_arrow_touches_ns_only_witness :
  dataframe_to_arrow (fun _ _ vs => Return vs)
    [pl.mkSeries "ns" (pl.Datetime pl.ns None) [PyInt 2000];
     pl.mkSeries "ms" (pl.Datetime pl.ms (Some "UTC")) [PyInt 1]]
  = Return
      [(pa.field "ns" (pa.timestamp pa.us None), [PyInt 2]);
       (pa.field "ms" (pa.timestamp pa.ms (Some "UTC")), [PyInt 1])]
  /\ nth_error
       [(pa.field "ns" (pa.timestamp pa.us None), [PyInt 2]);
        (pa.field "ms" (pa.timestamp pa.ms (Some "UTC")), [PyInt 1])]
       1
     = Some (pa.field "ms" (pa.timestamp pa.ms (Some "UTC")), [PyInt 1]).
Proof.
  split; [reflexivity|].
  apply (proj2 (dataframe_to_arrow_touches_ns_only (fun _ _ vs => Return vs)
                  [pl.mkSeries "ns" (pl.Datetime pl.ns None) [PyInt 2000];
                   pl.mkSeries "ms" (pl.Datetime pl.ms (Some "UTC")) [PyInt 1]]
                  [(pa.field "ns" (pa.timestamp pa.us None), [PyInt 2]);
                   (pa.field "ms" (pa.timestamp pa.ms (Some "UTC")), [PyInt 1])]
                  eq_refl)
           1 (pl.mkSeries "ms" (pl.Datetime pl.ms (Some "UTC")) [PyInt 1])).
  - reflexivity.
  - intros tz. discriminate.
Defined.

(** X14: a table that leaves the downcast has no top-level field at
    nanosecond resolution, and a second downcast returns it as it is. *)
Theorem downcast_timestamps_leaves_no_ns :
  forall (cast_other :
            pa.DataType -> pa.DataType -> list Value -> result (list Value))
         (t t' : pa.Table),
    downcast_timestamps cast_other t = Return t' ->
    existsb (fun f => is_ns_timestamp (pa.type f)) (pa.schema t') = false
    /\ downcast_timestamps cast_other t' = Return t'.
Proof.
  intros cast_other t t' H.
  assert (Hnone : existsb (fun f => is_ns_timestamp (pa.type f)) (pa.schema t')
                  = false).
  { rewrite (downcast_timestamps_schema cast_other t t' H).
    apply downcast_fields_settled. }
  split; [exact Hnone|]. apply downcast_timestamps_quiet. exact Hnone.
Qed.

Lemma downcast_timestamps_leaves_no_ns_witness :
  existsb (fun f => is_ns_timestamp (pa.type f))
          (pa.schema [(pa.field "ts" (pa.timestamp pa.us (Some "UTC")),
                       [PyInt 3; PyNone])])
  = false
  /\ downcast_timestamps (fun _ _ vs => Return vs)
       [(pa.field "ts" (pa.timestamp pa.us (Some "UTC")), [PyInt 3; PyNone])]
     = Return
         [(pa.field "ts" (pa.timestamp pa.us (Some "UTC")), [PyInt 3; PyNone])].
Proof.
  apply (downcast_timestamps_leaves_no_ns (fun _ _ vs => Return vs)
           [(pa.field "ts" (pa.timestamp pa.ns (Some "UTC")),
             [PyInt 3000; PyNone])]).
  reflexivity.
Defined.





(** X21: when every cell of every top-level nanosecond column is null or
    a whole number of microseconds, the bridge returns a table, and in it
    each such column is at microsecond resolution with the same name and
    time zone, as many rows as before, nulls where nulls were, and each
    count divided by 1000. *)
Theorem dataframe_to_arrow_rescales_whole :
  forall (cast_other :
            pa.DataType -> pa.DataType -> list Value -> result (list Value))
         (df : pl.DataFrame),
    ns_columns_whole df = true ->
    exists table,
      dataframe_to_arrow cast_other df = Return table
      /\ forall i s tz,
           nth_error df i = Some s ->
           pl.dtype s = pl.Datetime pl.ns tz ->
           exists vs,
             nth_error table i
             = Some (pa.field (pl.name s) (pa.timestamp pa.us tz), vs)
             /\ List.length vs = List.length (pl.values s)
             /\ forall j v,
                  nth_error (pl.values s) j = Some v ->
                  (v = PyNone /\ nth_error vs j = Some PyNone)
                  \/ (exists n,
                        v = PyInt n /\ Z.modulo n 1000 = 0%Z
                        /\ nth_error vs j = Some (PyInt (Z.div n 1000))).
Proof.
  intros cast_other df Hwhole.
  destruct (dataframe_to_arrow_returns cast_other df Hwhole) as [table Htable].
  exists table. split; [exact Htable|].
  intros i s tz Hi Hd.
  destruct (dataframe_to_arrow_column cast_other df table i s Htable Hi)
    as [col [Hcol Hdown]].
  unfold downcast_column in Hdown. simpl in Hdown. rewrite Hd in Hdown.
  simpl in Hdown.
  destruct (map_result pa.rescale_ns_to_us (pl.values s)) as [vs|e] eqn:Ev;
    [|discriminate].
  simpl in Hdown. inversion Hdown; subst col. exists vs.
  split; [exact Hcol|]. apply rescale_cells. exact Ev.
Qed.

Lemma dataframe_to_arrow_rescales_whole_witness :
  exists table,
    dataframe_to_arrow (fun _ _ vs => Return vs)
      [pl.mkSeries "ts" (pl.Datetime pl.ns (Some "UTC"))
         [PyInt 1700000000000000000; PyNone; PyInt (-3000)]]
    = Return table
    /\ exists vs,
         nth_error table 0
         = Some (pa.field "ts" (pa.timestamp pa.us (Some "UTC")), vs)
         /\ nth_error vs 2 = Some (PyInt (-3)).
Proof.
  destruct (dataframe_to_arrow_rescales_whole (fun _ _ vs => Return vs)
              [pl.mkSeries "ts" (pl.Datetime pl.ns (Some "UTC"))
                 [PyInt 1700000000000000000; PyNone; PyInt (-3000)]]
              eq_refl)
    as [table [Htable Hcols]].
  exists table. split; [exact Htable|].
  destruct (Hcols 0
              (pl.mkSeries "ts" (pl.Datetime pl.ns (Some "UTC"))
                 [PyInt 1700000000000000000; PyNone; PyInt (-3000)])
              (Some "UTC") eq_refl eq_refl)
    as [vs [Hvs [_ Hcells]]].
  exists vs. split; [exact Hvs|].
  destruct (Hcells 2 (PyInt (-3000)) eq_refl) as [[Hnone _]|[n [Hn [_ Hj]]]];
    [discriminate|].
  inversion Hn; subst n. exact Hj.
Defined.

(** ** Configuration *)

(** X16: the configuration of an ingest run.  A namespace or table flag
    that is given and non-empty wins; an absent or empty flag leaves the
    environment variable, or the built-in default when the variable is
    unset; the catalog properties come from the environment alone. *)
Theorem ingest_config_precedence :
  forall (environ : dict string) (args_namespace args_table : option string),
    exists cfg,
      ingest_config environ args_namespace args_table = Done cfg
      /\ config.namespace cfg
         = flag_or args_namespace
             (config.environ_get environ "ICEBERG_NAMESPACE" "default")
      /\ config.table_name cfg
         = flag_or args_table (config.environ_get environ "ICEBERG_TABLE" "raw")
      /\ config.catalog_properties cfg
         = [("uri",
             config.environ_get environ "ICEBERG_REST_URI" "http://localhost:8181");
            ("warehouse",
             config.environ_get environ "ICEBERG_WAREHOUSE" "s3://warehouse/");
            ("s3.endpoint",
             config.environ_get environ "S3_ENDPOINT" "http://localhost:9000");
            ("s3.access-key-id",
             config.environ_get environ "S3_ACCESS_KEY" "admin");
            ("s3.secret-access-key",
             config.environ_get environ "S3_SECRET_KEY" "password");
            ("s3.region", config.environ_get environ "S3_REGION" "us-east-1")].
Proof.
  intros environ [ns|] [t|]; unfold ingest_config, ingest_overrides, flag_or;
    simpl truthy;
    repeat match goal with
           | |- context [String.eqb ?x ""] => destruct (String.eqb x "")
           end;
    eexists; (split; [reflexivity|]); repeat split.
Qed.

(** ** The writer *)

Section WriterFacts.
Context {World Catalog TableRef : Type}.
Variable api : RestCatalog World Catalog TableRef.
Variable convert : pl.DataType -> pl.DataType -> Value -> Value.
Variable cast_other :
  pa.DataType -> pa.DataType -> list Value -> result (list Value).

Lemma write_to_iceberg_steps cfg df mode w arrow_table catalog w1 w2 :
  arrow_of_frame convert cast_other df = Return arrow_table ->
  get_catalog api cfg w = (w1, Done catalog) ->
  ensure_namespace api catalog (config.namespace cfg) w1 = (w2, Done tt) ->
  write_to_iceberg api convert cast_other cfg df mode w
  = io_bind
      (load_or_create_table api catalog
         (config.namespace cfg ++ "." ++ config.table_name cfg)%string
         arrow_table)
      (fun table =>
         if String.eqb mode "overwrite"
         then overwrite api table arrow_table
         else append api table arrow_table) w2.
Proof.
  intros Harrow Hcat Hns. unfold write_to_iceberg. rewrite Harrow.
  unfold io_bind at 1. rewrite Hcat.
  unfold io_bind at 1. rewrite Hns. reflexivity.
Qed.
End WriterFacts.

Lemma memory_namespace_settles ns : forall (w w' : MemoryWorld),
  create_namespace memory_catalog tt ns w = (w', Done tt)
  \/ create_namespace memory_catalog tt ns w
     = (w', Failed NamespaceAlreadyExistsError) ->
  create_namespace memory_catalog tt ns w'
  = (w', Failed NamespaceAlreadyExistsError).
Proof.
  intros [nss tables] w' H. simpl in H |- *.
  destruct (existsb (String.eqb ns) nss) eqn:E.
  - destruct H as [H|H]; inversion H; subst. simpl. rewrite E. reflexivity.
  - destruct H as [H|H]; inversion H; subst. simpl.
    rewrite existsb_app. simpl. rewrite String.eqb_refl, orb_true_r. reflexivity.
Qed.

(** X17: only the exact string ["overwrite"] overwrites; with any other
    mode the writer does what it does for ["append"]. *)
Theorem write_to_iceberg_other_modes_append :
  forall (World Catalog TableRef : Type)
         (api : RestCatalog World Catalog TableRef)
         (convert : pl.DataType -> pl.DataType -> Value -> Value)
         (cast_other :
            pa.DataType -> pa.DataType -> list Value -> result (list Value))
         (cfg : config.Config) (df : pl.DataFrame) (mode : string) (w : World),
    mode <> "overwrite" ->
    write_to_iceberg api convert cast_other cfg df mode w
    = write_to_iceberg api convert cast_other cfg df "append" w.
Proof.
  intros World Catalog TableRef api convert cast_other cfg df mode w Hmode.
  unfold write_to_iceberg.
  rewrite (proj2 (String.eqb_neq mode "overwrite") Hmode). reflexivity.
Qed.

Lemma write_to_iceberg_other_modes_append_witness :
  write_to_iceberg memory_catalog (fun _ _ v => v) (fun _ _ vs => Return vs)
    (config.mkConfig "u" "w" "e" "k" "s" "r" "default" "raw")
    [pl.mkSeries "a" pl.Int64 [PyInt 1]] "Overwrite" ([], [])
  = write_to_iceberg memory_catalog (fun _ _ v => v) (fun _ _ vs => Return vs)
      (config.mkConfig "u" "w" "e" "k" "s" "r" "default" "raw")
      [pl.mkSeries "a" pl.Int64 [PyInt 1]] "append" ([], []).
Proof.
  apply write_to_iceberg_other_modes_append. discriminate.
Defined.

(** X18: with a catalog in which a namespace, once created or reported
    as existing, is reported as existing from then on without further
    change, [ensure_namespace] that has succeeded succeeds again and
    leaves the service as it was. *)
Theorem ensure_namespace_repeats_quietly :
  forall (World Catalog TableRef : Type)
         (api : RestCatalog World Catalog TableRef)
         (catalog : Catalog) (namespace : string),
    (forall w w',
        create_namespace api catalog namespace w = (w', Done tt)
        \/ create_namespace api catalog namespace w
           = (w', Failed NamespaceAlreadyExistsError) ->
        create_namespace api catalog namespace w'
        = (w', Failed NamespaceAlreadyExistsError)) ->
    forall w w',
      ensure_namespace api catalog namespace w = (w', Done tt) ->
      ensure_namespace api catalog namespace w' = (w', Done tt).
Proof.
  intros World Catalog TableRef api catalog namespace Hsettles w w' H.
  unfold ensure_namespace in *.
  destruct (create_namespace api catalog namespace w) as [w1 [[]|e]] eqn:E.
  - inversion H; subst. rewrite (Hsettles w w') by (left; exact E). reflexivity.
  - destruct e; try discriminate. inversion H; subst.
    rewrite (Hsettles w w') by (right; exact E). reflexivity.
Qed.

Lemma ensure_namespace_repeats_quietly_witness :
  ensure_namespace memory_catalog tt "analytics" (["analytics"], [])
  = ((["analytics"], []), Done tt).
Proof.
  apply (ensure_namespace_repeats_quietly MemoryWorld unit string memory_catalog
           tt "analytics" (memory_namespace_settles "analytics") ([], [])).
  reflexivity.
Defined.

(** X19: when loading the table fails with anything but "no such
    table", the writer stops there with that error: no table is created
    and nothing is written. *)
Theorem write_to_iceberg_load_failure_stops :
  forall (World Catalog TableRef : Type)
         (api : RestCatalog World Catalog TableRef)
         (convert : pl.DataType -> pl.DataType -> Value -> Value)
         (cast_other :
            pa.DataType -> pa.DataType -> list Value -> result (list Value))
         (cfg : config.Config) (df : pl.DataFrame) (mode : string)
         (arrow_table : pa.Table) (catalog : Catalog) (w w1 w2 w3 : World)
         (e : Exn),
    arrow_of_frame convert cast_other df = Return arrow_table ->
    get_catalog api cfg w = (w1, Done catalog) ->
    ensure_namespace api catalog (config.namespace cfg) w1 = (w2, Done tt) ->
    load_table api catalog
      (config.namespace cfg ++ "." ++ config.table_name cfg)%string w2
    = (w3, Failed e) ->
    e <> NoSuchTableError ->
    write_to_iceberg api convert cast_other cfg df mode w = (w3, Failed e).
Proof.
  intros World Catalog TableRef api convert cast_other cfg df mode arrow_table
         catalog w w1 w2 w3 e Harrow Hcat Hns Hload He.
  rewrite (write_to_iceberg_steps api convert cast_other cfg df mode w
             arrow_table catalog w1 w2 Harrow Hcat Hns).
  unfold io_bind, load_or_create_table. rewrite Hload.
  destruct e; try reflexivity. contradiction.
Qed.

Lemma write_to_iceberg_load_failure_stops_witness :
  write_to_iceberg failing_catalog (fun _ _ v => v) (fun _ _ vs => Return vs)
    (config.mkConfig "u" "w" "e" "k" "s" "r" "default" "raw")
    [pl.mkSeries "a" pl.Int64 [PyInt 1]] "overwrite" ([], [])
  = ((["default"], []), Failed (CatalogFailure "503")).
Proof.
  apply (write_to_iceberg_load_failure_stops MemoryWorld unit string
           failing_catalog (fun _ _ v => v) (fun _ _ vs => Return vs)
           (config.mkConfig "u" "w" "e" "k" "s" "r" "default" "raw")
           [pl.mkSeries "a" pl.Int64 [PyInt 1]] "overwrite"
           (to_arrow [pl.mkSeries "a" pl.Int64 [PyInt 1]])
           tt ([], []) ([], []) (["default"], []) (["default"], [])
           (CatalogFailure "503"));
    try reflexivity.
  discriminate.
Defined.

(** ** Which dtypes the resolver changes *)

Lemma resolve_changes_pending default :
  default <> pl.Null ->
  forall d, _resolve_dtype d default = d -> pending d = false.
Proof.
  intros Hdef.
  induction d as [ | | | | | |u z|inner IH|inner w IH|fields IH]
    using DataType_nested_ind; intros Heq; try reflexivity.
  - rewrite resolve_Null in Heq. contradiction.
  - rewrite resolve_List in Heq. injection Heq as Hinner. exact (IH Hinner).
  - rewrite resolve_Struct in Heq. injection Heq as Hfields.
    simpl. induction IH as [|[n t] fs Ht _ IHfs]; [reflexivity|].
    simpl in Hfields, Ht |- *. injection Hfields as Hhead Htail.
    rewrite (Ht Hhead), (IHfs Htail). reflexivity.
Qed.

(** X20: for a default other than the placeholder itself, the resolver
    returns a dtype unchanged exactly when no placeholder is reachable in
    it through lists and structs; so those, and only those, are the
    columns [resolve_null_types] casts. *)
Theorem resolve_dtype_changes_exactly_pending :
  forall (d default : pl.DataType),
    default <> pl.Null ->
    (_resolve_dtype d default = d <-> pending d = false).
Proof.
  intros d default Hdef. split.
  - apply resolve_changes_pending. exact Hdef.
  - apply resolve_settled.
Qed.

Lemma resolve_dtype_changes_exactly_pending_witness :
  _resolve_dtype (pl.Struct [("n", pl.Int64); ("l", pl.List pl.Float64)]) pl.Utf8
  = pl.Struct [("n", pl.Int64); ("l", pl.List pl.Float64)].
Proof.
  apply (proj2 (resolve_dtype_changes_exactly_pending
                  (pl.Struct [("n", pl.Int64); ("l", pl.List pl.Float64)])
                  pl.Utf8 ltac:(discriminate))).
  reflexivity.
Defined.
